(** * go-smart: conversation state machine, tool-calling loop and registries

    A shallow embedding of the Go sources of the service:
    - [pkg/tools/registry.go] and the tool manager (the capability registry),
    - the plugin manager (the capability loader),
    - [pkg/conversation/state.go], the conversation manager, the step flow
      and the multi-turn handler (session store and dialogue steps),
    - [pkg/graph/workflow.go] (the agentic tool-calling loop),
    - [pkg/tools/query_order.go] and the refund tool (mock business tools).

    Conventions.  A Go [string] is a sequence of bytes: it is a Rocq [string]
    whose characters are the bytes of the UTF-8 text.  A Go [error] is the
    text of its message, [nil] being [None].  A Go map is a [gmap]; where the
    source ranges over a map the iteration order is an explicit argument,
    because the Go runtime does not fix it.  Calls that read the outside
    world (the clock, the random generator, the chat model, the plugin
    files) are arguments of the functions that make them. *)

From Stdlib Require Import ZArith String Ascii List Lia Bool.
From stdpp Require Import base gmap strings list pretty.

Open Scope string_scope.

(** ** Results of fallible Go functions *)

Definition error := string.

(** A function returning [(T, error)] yields [Ok v] for [(v, nil)] and
    [Err e] for a non-nil error; [Panic] is a run-time panic (a failed type
    assertion), which unwinds through every caller. *)
Inductive Result (A : Type) : Type :=
| Ok (a : A)
| Err (e : error)
| Panic (msg : string).

Arguments Ok {A} a.
Arguments Err {A} e.
Arguments Panic {A} msg.

Definition is_Ok {A} (r : Result A) : bool :=
  match r with Ok _ => true | _ => false end.

(** The newline of Go's [\n]. *)
Definition nl : string := String (ascii_of_nat 10) EmptyString.

(** Values stored in a [map[string]interface{}]. *)
Inductive Value : Type :=
| VString (s : string)
| VBool (b : bool)
| VNumber (z : Z).

(** ** The parts of Go's [strings] and [regexp] packages the service uses *)

Module GoStrings.

Definition code (c : ascii) : nat := nat_of_ascii c.

Definition is_digit (c : ascii) : bool :=
  (48 <=? code c)%nat && (code c <=? 57)%nat.
Definition is_upper (c : ascii) : bool :=
  (65 <=? code c)%nat && (code c <=? 90)%nat.
Definition is_lower (c : ascii) : bool :=
  (97 <=? code c)%nat && (code c <=? 122)%nat.
(** The class [[A-Za-z]]. *)
Definition is_letter (c : ascii) : bool := is_upper c || is_lower c.
(** The class [\w], which in Go is [[0-9A-Za-z_]]. *)
Definition is_word (c : ascii) : bool :=
  is_digit c || is_letter c || (code c =? 95)%nat.

Definition upper_char (c : ascii) : ascii :=
  if is_lower c then ascii_of_nat (code c - 32) else c.
Definition lower_char (c : ascii) : ascii :=
  if is_upper c then ascii_of_nat (code c + 32) else c.

Fixpoint map_bytes (f : ascii -> ascii) (s : string) : string :=
  match s with
  | EmptyString => EmptyString
  | String c s' => String (f c) (map_bytes f s')
  end.

(** [strings.ToUpper] and [strings.ToLower] on the ASCII letters; bytes
    of other characters are kept.  The service applies them to regexp
    matches made of ASCII letters and digits, and before a search for
    keywords written in characters that have no case. *)
Definition ToUpper (s : string) : string := map_bytes upper_char s.
Definition ToLower (s : string) : string := map_bytes lower_char s.

(** [strings.HasPrefix s p]. *)
Fixpoint HasPrefix (s p : string) : bool :=
  match p with
  | EmptyString => true
  | String a p' =>
      match s with
      | EmptyString => false
      | String b s' => if Ascii.eqb a b then HasPrefix s' p' else false
      end
  end.

(** [strings.Contains s substr]. *)
Fixpoint Contains (s substr : string) : bool :=
  HasPrefix s substr ||
  match s with
  | EmptyString => false
  | String _ s' => Contains s' substr
  end.

(** The first keyword of [kws] that occurs in [s], as the loops
    [for _, k := range kws { if strings.Contains(s, k) {...} }] find it. *)
Fixpoint first_contained (s : string) (kws : list string) : option string :=
  match kws with
  | [] => None
  | k :: rest => if Contains s k then Some k else first_contained s rest
  end.

Fixpoint drop (n : nat) (s : string) : string :=
  match n with
  | O => s
  | S n' => match s with EmptyString => EmptyString | String _ s' => drop n' s' end
  end.

(** The longest prefix of [s] made of characters of the class [p], and
    what follows it: a greedy [[p]*] at the start of [s]. *)
Fixpoint span (p : ascii -> bool) (s : string) : string * string :=
  match s with
  | EmptyString => (EmptyString, EmptyString)
  | String c s' =>
      if p c then let '(run, rest) := span p s' in (String c run, rest)
      else (EmptyString, s)
  end.

(** A match of [ORD\w+] that starts at the first byte of [s].  The greedy
    [\w+] takes the whole run of word characters and nothing follows it in
    the pattern, so no backtracking occurs. *)
Definition match_ORD_word (s : string) : option string :=
  if HasPrefix s "ORD" then
    let '(w, _) := span is_word (drop 3 s) in
    match w with
    | EmptyString => None
    | _ => Some ("ORD" ++ w)
    end
  else None.

(** A match of [[A-Za-z]*\d{6,}] that starts at the first byte of [s].
    Letters and digits are disjoint classes, so giving back letters of
    the greedy run never yields a match: the match is the whole run of
    letters followed by the whole run of digits, when that has six or
    more digits. *)
Definition match_letters_digits (s : string) : option string :=
  let '(l, rest) := span is_letter s in
  let '(d, _) := span is_digit rest in
  if (6 <=? String.length d)%nat then Some (l ++ d) else None.

(** [Regexp.FindString]: the leftmost match, [m] deciding the match at a
    given start. *)
Fixpoint find_first (m : string -> option string) (s : string) : option string :=
  match m s with
  | Some tok => Some tok
  | None =>
      match s with
      | EmptyString => None
      | String _ s' => find_first m s'
      end
  end.

(** [Regexp.FindAllString(s, -1)]: the successive leftmost matches, each
    search resuming where the previous match ended.  [skip] counts the
    bytes of the last match still to be passed over.  (The patterns used
    never match the empty string.) *)
Fixpoint find_all_from (m : string -> option string) (skip : nat) (s : string)
  : list string :=
  match s with
  | EmptyString => []
  | String _ s' =>
      match skip with
      | S k => find_all_from m k s'
      | O =>
          match m s with
          | Some tok => tok :: find_all_from m (String.length tok - 1) s'
          | None => find_all_from m 0 s'
          end
      end
  end.

Definition find_all (m : string -> option string) (s : string) : list string :=
  find_all_from m 0 s.

End GoStrings.

(** ** pkg/tools/registry.go and the tool manager *)

Module Tools.

(** The [ToolFunction] interface.  [Call] returns the result map together
    with the error, as the Go method does. *)
Record ToolFunction : Type := {
  GetName : string;
  GetDescription : string;
  GetParameters : gmap string Value;
  Call : gmap string Value -> gmap string Value * option error
}.

Record ToolRegistry : Type := { tools : gmap string ToolFunction }.

Definition NewToolRegistry : ToolRegistry := {| tools := ∅ |}.

(** [RegisterTool]; a nil interface value is [None]. *)
Definition RegisterTool (r : ToolRegistry) (tool : option ToolFunction)
  : option error * ToolRegistry :=
  match tool with
  | None => (Some "tool cannot be nil", r)
  | Some t =>
      let name := GetName t in
      if String.eqb name "" then (Some "tool name cannot be empty", r)
      else
        match tools r !! name with
        | Some _ =>
            (Some ("tool with name '" ++ name ++ "' already registered"), r)
        | None => (None, {| tools := <[name := t]> (tools r) |})
        end
  end.

Definition GetTool (r : ToolRegistry) (name : string) : option ToolFunction :=
  tools r !! name.

(** [GetAllTools] copies the map. *)
Definition GetAllTools (r : ToolRegistry) : gmap string ToolFunction := tools r.

Definition CallTool (r : ToolRegistry) (name : string) (args : gmap string Value)
  : gmap string Value * option error :=
  match tools r !! name with
  | None => (∅, Some ("tool '" ++ name ++ "' not found"))
  | Some t => Call t args
  end.

Definition UnregisterTool (r : ToolRegistry) (name : string)
  : option error * ToolRegistry :=
  match tools r !! name with
  | None => (Some ("tool '" ++ name ++ "' not found"), r)
  | Some _ => (None, {| tools := delete name (tools r) |})
  end.

Definition Clear (r : ToolRegistry) : ToolRegistry := {| tools := ∅ |}.

Definition Count (r : ToolRegistry) : nat := size (tools r).

(** The tool manager forwards to its registry. *)
Record ToolManager : Type := { registry : ToolRegistry }.

Definition ToolManager_GetTool (m : ToolManager) (name : string) :=
  GetTool (registry m) name.
Definition ToolManager_GetAllTools (m : ToolManager) :=
  GetAllTools (registry m).

(** One entry of [GetToolsSchema]. *)
Record ToolSchema : Type := {
  schema_name : string;
  schema_description : string;
  schema_parameters : gmap string Value
}.

(** [GetToolsSchema]; [range_tools] gives the order in which the runtime
    ranges over the table. *)
Definition GetToolsSchema (range_tools : gmap string ToolFunction -> list ToolFunction)
    (r : ToolRegistry) : list ToolSchema :=
  map (fun tool => {| schema_name := GetName tool;
                      schema_description := GetDescription tool;
                      schema_parameters := GetParameters tool |})
      (range_tools (tools r)).

(** [registerDefaultTools], given the three business tools it builds: the
    errors of [RegisterTool] are dropped. *)
Definition registerDefaultTools (defaults : list ToolFunction) (m : ToolManager)
  : ToolManager :=
  {| registry := foldl (fun r tool => (RegisterTool r (Some tool)).2) (registry m) defaults |}.

(** [ReloadTools]: clear the registry, register the default tools. *)
Definition ReloadTools (defaults : list ToolFunction) (m : ToolManager) : ToolManager :=
  registerDefaultTools defaults {| registry := Clear (registry m) |}.

Definition ToolManager_RegisterTool (m : ToolManager) (tool : option ToolFunction)
  : option error * ToolManager :=
  let '(e, r) := RegisterTool (registry m) tool in (e, {| registry := r |}).

Definition ToolManager_UnregisterTool (m : ToolManager) (name : string)
  : option error * ToolManager :=
  let '(e, r) := UnregisterTool (registry m) name in (e, {| registry := r |}).

Definition ToolManager_CallTool (m : ToolManager) (name : string)
    (args : gmap string Value) : gmap string Value * option error :=
  CallTool (registry m) name args.

End Tools.

(** ** The plugin manager (capability loader) *)

Module Plugin.

Section WithFunctionValues.

(** Go function values held in an [interface{}]. *)
Variable Func : Type.

Record ToolInfo : Type := {
  Name : string;
  Description : string;
  Function : Func
}.

Record PluginInfo : Type := {
  PluginName : string;
  Path : string;
  Tools : list ToolInfo
}.

(** A method of a plugin instance as reflection shows it: its name, its
    value, and whether it has one result that is a function of type
    [func(context.Context, map[string]interface{}) (map[string]interface{}, error)]. *)
Record Method : Type := {
  MethodName : string;
  MethodValue : Func;
  ReturnsToolFunc : bool
}.

(** What [plugin.Open], [Lookup("NewPlugin")], the type assertion and
    the constructor yield for a file. *)
Inductive Artifact : Type :=
| OpenFails (e : error)
| LookupFails (e : error)
| WrongEntryType
| Instance (methods : list Method).

(** [mu] is [true] while the lock [pm.mu] is held.  The logger and the
    plugin directory are not part of the model. *)
Record PluginManager : Type := {
  plugins : gmap string PluginInfo;
  pluginFunctions : gmap string Func;
  mu : bool
}.

(** A call either returns, or blocks for ever on a lock that is held:
    [sync.RWMutex] is not reentrant. *)
Inductive Outcome : Type :=
| Returned (e : option error) (pm : PluginManager)
| Blocked.

Definition set_mu (b : bool) (pm : PluginManager) : PluginManager :=
  {| plugins := plugins pm; pluginFunctions := pluginFunctions pm; mu := b |}.

(** [pm.mu.Lock(); defer pm.mu.Unlock(); body]. *)
Definition with_lock (pm : PluginManager) (body : PluginManager -> Outcome)
  : Outcome :=
  if mu pm then Blocked
  else
    match body (set_mu true pm) with
    | Returned e pm' => Returned e (set_mu false pm')
    | Blocked => Blocked
    end.

Definition getMethodDescription (methodName : string) : string :=
  "工具函数: " ++ methodName.

Definition extractTools (methods : list Method) : list ToolInfo :=
  map (fun m => {| Name := MethodName m;
                   Description := getMethodDescription (MethodName m);
                   Function := MethodValue m |})
      (filter (fun m => ReturnsToolFunc m = true) methods).

Definition funcName (pluginName toolName : string) : string :=
  pluginName ++ "." ++ toolName.

(** [for _, tool := range tools { pm.pluginFunctions[funcName] = tool.Function }] *)
Definition save_functions (pluginName : string) (ts : list ToolInfo)
    (fns : gmap string Func) : gmap string Func :=
  foldl (fun acc tool => <[funcName pluginName (Name tool) := Function tool]> acc)
        fns ts.

(** [for _, tool := range tools { delete(pm.pluginFunctions, funcName) }] *)
Definition delete_functions (pluginName : string) (ts : list ToolInfo)
    (fns : gmap string Func) : gmap string Func :=
  foldl (fun acc tool => delete (funcName pluginName (Name tool)) acc) fns ts.

(** The body of [LoadPlugin], run while the lock is held. *)
Definition LoadPlugin_locked (fs : string -> Artifact) (pluginName pluginPath : string)
    (pm : PluginManager) : option error * PluginManager :=
  match plugins pm !! pluginName with
  | Some _ => (Some ("插件 " ++ pluginName ++ " 已加载"), pm)
  | None =>
      match fs pluginPath with
      | OpenFails e => (Some ("打开插件失败: " ++ e), pm)
      | LookupFails e => (Some ("查找插件入口失败: " ++ e), pm)
      | WrongEntryType => (Some "无效的插件入口函数类型", pm)
      | Instance methods =>
          let tools := extractTools methods in
          let pluginInfo :=
            {| PluginName := pluginName; Path := pluginPath; Tools := tools |} in
          (None,
           {| plugins := <[pluginName := pluginInfo]> (plugins pm);
              pluginFunctions := save_functions pluginName tools (pluginFunctions pm);
              mu := mu pm |})
      end
  end.

Definition LoadPlugin (fs : string -> Artifact) (pm : PluginManager)
    (pluginName pluginPath : string) : Outcome :=
  with_lock pm (fun pm =>
    let '(e, pm') := LoadPlugin_locked fs pluginName pluginPath pm in
    Returned e pm').

Definition UnloadPlugin (pm : PluginManager) (pluginName : string) : Outcome :=
  with_lock pm (fun pm =>
    match plugins pm !! pluginName with
    | None => Returned (Some ("插件 " ++ pluginName ++ " 不存在")) pm
    | Some pluginInfo =>
        Returned None
          {| plugins := delete pluginName (plugins pm);
             pluginFunctions :=
               delete_functions pluginName (Tools pluginInfo) (pluginFunctions pm);
             mu := mu pm |}
    end).

(** The state [ReloadPlugin] has built when it calls [LoadPlugin]: the
    old function references are deleted, the entry of [pm.plugins] is
    kept, and the lock is held. *)
Definition ReloadPlugin_before_load (pm : PluginManager) (pluginName : string)
    (pluginInfo : PluginInfo) : PluginManager :=
  {| plugins := plugins pm;
     pluginFunctions :=
       delete_functions pluginName (Tools pluginInfo) (pluginFunctions pm);
     mu := mu pm |}.

Definition ReloadPlugin (fs : string -> Artifact) (pm : PluginManager)
    (pluginName : string) : Outcome :=
  with_lock pm (fun pm =>
    match plugins pm !! pluginName with
    | None => Returned (Some ("插件 " ++ pluginName ++ " 不存在")) pm
    | Some pluginInfo =>
        match LoadPlugin fs (ReloadPlugin_before_load pm pluginName pluginInfo)
                pluginName (Path pluginInfo) with
        | Returned (Some e) pm' => Returned (Some ("重新加载插件失败: " ++ e)) pm'
        | Returned None pm' => Returned None pm'
        | Blocked => Blocked
        end
    end).

Definition GetPluginFunction (pm : PluginManager) (functionName : string)
  : Result Func :=
  match pluginFunctions pm !! functionName with
  | None => Err ("插件函数 " ++ functionName ++ " 不存在")
  | Some f => Ok f
  end.

Definition GetPlugin (pm : PluginManager) (pluginName : string) : Result PluginInfo :=
  match plugins pm !! pluginName with
  | None => Err ("插件 " ++ pluginName ++ " 不存在")
  | Some info => Ok info
  end.

(** [fmt.Sprintf("%v", names)] for a slice of strings. *)
Fixpoint spaced (names : list string) : string :=
  match names with
  | [] => ""
  | [n] => n
  | n :: rest => n ++ " " ++ spaced rest
  end.

(** The loop of [ReloadAllPlugins] over the saved names: the names that
    failed and the manager, or [None] when a call of [LoadPlugin] blocks.
    [Join] is [filepath.Join]. *)
Fixpoint reload_each (fs : string -> Artifact) (Join : string -> string -> string)
    (pluginsDir : string) (names : list string) (pm : PluginManager)
    (failed : list string) : option (list string * PluginManager) :=
  match names with
  | [] => Some (failed, pm)
  | pluginName :: rest =>
      match LoadPlugin fs pm pluginName (Join pluginsDir (pluginName ++ ".so")) with
      | Blocked => None
      | Returned (Some _) pm' =>
          reload_each fs Join pluginsDir rest pm' (failed ++ [pluginName])%list
      | Returned None pm' => reload_each fs Join pluginsDir rest pm' failed
      end
  end.

(** [ReloadAllPlugins]; [range] lists the names of [pm.plugins] in the
    order in which the runtime yields them. *)
Definition ReloadAllPlugins (fs : string -> Artifact) (Join : string -> string -> string)
    (pluginsDir : string) (range : list string) (pm : PluginManager) : Outcome :=
  with_lock pm (fun pm =>
    match reload_each fs Join pluginsDir range
            {| plugins := ∅; pluginFunctions := ∅; mu := mu pm |} [] with
    | None => Blocked
    | Some ([], pm') => Returned None pm'
    | Some (failed, pm') =>
        Returned (Some ("部分插件重新加载失败: [" ++ spaced failed ++ "]")) pm'
    end).

(** [s[:len(s)-3]] *)
Fixpoint take_bytes (n : nat) (s : string) : string :=
  match n, s with
  | S n', String c s' => String c (take_bytes n' s')
  | _, _ => EmptyString
  end.

Definition without_so (fileName : string) : string :=
  take_bytes (String.length fileName - 3) fileName.

(** [LoadAllPlugins] on the files that [filepath.Glob] found ([Err] when
    it failed); [Base] is [filepath.Base].  A plugin that fails to load is
    logged and skipped.  [None] when a call of [LoadPlugin] blocks. *)
Fixpoint load_each (fs : string -> Artifact) (Base : string -> string)
    (files : list string) (pm : PluginManager) : option PluginManager :=
  match files with
  | [] => Some pm
  | file :: rest =>
      match LoadPlugin fs pm (without_so (Base file)) file with
      | Blocked => None
      | Returned _ pm' => load_each fs Base rest pm'
      end
  end.

Definition LoadAllPlugins (fs : string -> Artifact) (Base : string -> string)
    (glob : Result (list string)) (pm : PluginManager) : option PluginManager :=
  match glob with
  | Ok files => load_each fs Base files pm
  | _ => Some pm
  end.

(** [NewPluginManager]. *)
Definition NewPluginManager (fs : string -> Artifact) (Base : string -> string)
    (glob : Result (list string)) : option PluginManager :=
  LoadAllPlugins fs Base glob {| plugins := ∅; pluginFunctions := ∅; mu := false |}.

(** [ConversationService.ExecutePluginFunction].  [NumIn] and [NumOut] are
    what reflection reports for the type of a function value;
    [invoke] stands for the reflective call and the conversions of its two
    results, which are reached only when the signature check passes. *)
Definition ExecutePluginFunction (NumIn NumOut : Func -> nat)
    (invoke : Func -> gmap string Value -> Result (gmap string Value))
    (pm : PluginManager) (functionName : string) (params : gmap string Value)
  : Result (gmap string Value) :=
  match GetPluginFunction pm functionName with
  | Err e => Err ("获取插件函数失败: " ++ e)
  | Panic p => Panic p
  | Ok function =>
      if negb (NumIn function =? 2)%nat || negb (NumOut function =? 2)%nat
      then Err "插件函数签名不正确"
      else invoke function params
  end.

End WithFunctionValues.

Arguments Name {Func} _.
Arguments Description {Func} _.
Arguments Function {Func} _.
Arguments PluginName {Func} _.
Arguments Path {Func} _.
Arguments Tools {Func} _.
Arguments MethodName {Func} _.
Arguments MethodValue {Func} _.
Arguments ReturnsToolFunc {Func} _.
Arguments OpenFails {Func} e.
Arguments LookupFails {Func} e.
Arguments WrongEntryType {Func}.
Arguments Instance {Func} methods.
Arguments plugins {Func} _.
Arguments pluginFunctions {Func} _.
Arguments mu {Func} _.
Arguments Returned {Func} e pm.
Arguments Blocked {Func}.
Arguments set_mu {Func} b pm.
Arguments with_lock {Func} pm body.
Arguments extractTools {Func} methods.
Arguments save_functions {Func} pluginName ts fns.
Arguments delete_functions {Func} pluginName ts fns.
Arguments LoadPlugin_locked {Func} fs pluginName pluginPath pm.
Arguments LoadPlugin {Func} fs pm pluginName pluginPath.
Arguments UnloadPlugin {Func} pm pluginName.
Arguments ReloadPlugin_before_load {Func} pm pluginName pluginInfo.
Arguments ReloadPlugin {Func} fs pm pluginName.
Arguments GetPluginFunction {Func} pm functionName.
Arguments GetPlugin {Func} pm pluginName.
Arguments reload_each {Func} fs Join pluginsDir names pm failed.
Arguments ReloadAllPlugins {Func} fs Join pluginsDir range pm.
Arguments load_each {Func} fs Base files pm.
Arguments LoadAllPlugins {Func} fs Base glob pm.
Arguments NewPluginManager {Func} fs Base glob.
Arguments ExecutePluginFunction {Func} NumIn NumOut invoke pm functionName params.

End Plugin.

(** ** Time *)

Open Scope Z_scope.

(** A [time.Time] is a count of nanoseconds and so is a [time.Duration]. *)
Definition Time := Z.
Definition Duration := Z.
Definition Hour : Duration := 3600 * 1000000000.
(** The zero value [time.Time{}], 1 January of year 1, before every clock
    reading. *)
Definition zero_Time : Time := -62135596800 * 1000000000.
Definition IsZero (t : Time) : bool := (t =? zero_Time)%Z.

(** ** pkg/tools/query_order.go and the refund tool *)

Module BusinessTools.

(** Amounts ([float64] with two decimals in the source) are counted in
    hundredths. *)
Record Product : Type := {
  ProductID : string;
  ProductName : string;
  Price : Z;
  Quantity : Z
}.

Record OrderInfo : Type := {
  OrderID : string;
  Status : string;
  CreateTime : Time;
  PayTime : Time;
  ShipTime : Time;
  ProductList : list Product;
  TotalAmount : Z;
  ShipAddress : string;
  TrackingInfo : string;
  EstDelivery : Time
}.

(** [initMockData], [now] being the clock when the tool is created. *)
Definition mock_orders (now : Time) : list OrderInfo :=
  [ {| OrderID := "ORD123456"; Status := "已发货";
       CreateTime := now - 72 * Hour; PayTime := now - 71 * Hour;
       ShipTime := now - 24 * Hour;
       ProductList :=
         [ {| ProductID := "P001"; ProductName := "智能手表"; Price := 129900; Quantity := 1 |};
           {| ProductID := "P002"; ProductName := "手机壳"; Price := 4900; Quantity := 2 |} ];
       TotalAmount := 139700;
       ShipAddress := "北京市朝阳区某某街道123号";
       TrackingInfo := "顺丰快递，单号SF123456789";
       EstDelivery := now + 24 * Hour |};
    {| OrderID := "ORD789012"; Status := "已送达";
       CreateTime := now - 120 * Hour; PayTime := now - 119 * Hour;
       ShipTime := now - 96 * Hour;
       ProductList :=
         [ {| ProductID := "P003"; ProductName := "蓝牙耳机"; Price := 39900; Quantity := 1 |} ];
       TotalAmount := 39900;
       ShipAddress := "上海市浦东新区某某路456号";
       TrackingInfo := "顺丰快递，单号SF987654321";
       EstDelivery := now - 48 * Hour |};
    {| OrderID := "ORD345678"; Status := "待发货";
       CreateTime := now - 12 * Hour; PayTime := now - 11 * Hour;
       ShipTime := zero_Time;
       ProductList :=
         [ {| ProductID := "P004"; ProductName := "平板电脑"; Price := 299900; Quantity := 1 |};
           {| ProductID := "P005"; ProductName := "保护膜"; Price := 2900; Quantity := 3 |} ];
       TotalAmount := 308600;
       ShipAddress := "广州市天河区某某大道789号";
       TrackingInfo := "暂无物流信息";
       EstDelivery := now + 48 * Hour |} ].

Record QueryOrder : Type := { orders : gmap string OrderInfo }.

(** [for _, order := range orders { q.orders[order.OrderID] = order }] *)
Definition NewQueryOrder (now : Time) : QueryOrder :=
  {| orders := foldl (fun acc o => <[OrderID o := o]> acc) ∅ (mock_orders now) |}.

(** [Query]; the simulated delay is not modelled. *)
Definition Query (q : QueryOrder) (orderID : string) : Result OrderInfo :=
  match orders q !! orderID with
  | None => Err ("订单不存在: " ++ orderID)
  | Some order => Ok order
  end.

Record RefundRequest : Type := {
  RefundOrderID : string;
  Reason : string;
  Amount : Z;
  RequestTime : Time;
  RefundStatus : string;
  RequestID : string;
  ProcessTime : Time;
  Response : string
}.

(** [CheckRefundEligibility], [now] being the clock read by [time.Since]:
    the answer, its explanation, and the error. *)
Definition CheckRefundEligibility (q : QueryOrder) (now : Time) (orderID : string)
  : Result (bool * string) :=
  match Query q orderID with
  | Err e => Err ("查询订单失败: " ++ e)
  | Panic p => Panic p
  | Ok order =>
      if String.eqb (Status order) "已送达" then
        if (7 * 24 * Hour <? now - EstDelivery order)%Z
        then Ok (false, "订单已超过7天退货期")
        else Ok (true, "订单在退货期内，可以申请退款")
      else if String.eqb (Status order) "已发货" then
        Ok (true, "订单已发货但未送达，可以申请退款")
      else if String.eqb (Status order) "待发货" then
        Ok (true, "订单未发货，可以直接取消订单退款")
      else if String.eqb (Status order) "已取消" then
        Ok (false, "订单已取消，无法再次退款")
      else Ok (false, "当前订单状态不支持退款")
  end.

(** [SubmitRefund] on the table [refunds] of the refund tool.  [now1] is
    the clock read by the eligibility check, [now2] the one stored as
    request time, [rnd] the value of [rand.Intn(100000)]. *)
Definition SubmitRefund (q : QueryOrder) (now1 now2 : Time) (rnd : Z)
    (refunds : gmap string RefundRequest) (orderID reason : string)
  : Result RefundRequest * gmap string RefundRequest :=
  match CheckRefundEligibility q now1 orderID with
  | Err e => (Err e, refunds)
  | Panic p => (Panic p, refunds)
  | Ok (eligible, message) =>
      if negb eligible then (Err ("不符合退款条件: " ++ message), refunds)
      else
        match Query q orderID with
        | Err e => (Err ("查询订单失败: " ++ e), refunds)
        | Panic p => (Panic p, refunds)
        | Ok order =>
            let refundID := "REF" ++ pretty rnd in
            let refund :=
              {| RefundOrderID := orderID; Reason := reason;
                 Amount := TotalAmount order; RequestTime := now2;
                 RefundStatus := "处理中"; RequestID := refundID;
                 ProcessTime := zero_Time; Response := "" |} in
            (Ok refund, <[refundID := refund]> refunds)
        end
  end.

(** [RefundTool.initMockData], [now] being the clock when the tool is
    created. *)
Definition mock_refunds (now : Time) : list RefundRequest :=
  [ {| RefundOrderID := "ORD123456"; Reason := "商品质量问题"; Amount := 129900;
       RequestTime := now - 48 * Hour; RefundStatus := "已批准"; RequestID := "REF001";
       ProcessTime := now - 24 * Hour;
       Response := "退款已批准，将在3-5个工作日内原路退回您的支付账户" |};
    {| RefundOrderID := "ORD789012"; Reason := "不想要了"; Amount := 39900;
       RequestTime := now - 12 * Hour; RefundStatus := "处理中"; RequestID := "REF002";
       ProcessTime := zero_Time; Response := "" |} ].

(** The table of [NewRefundTool]. *)
Definition NewRefundTool_refunds (now : Time) : gmap string RefundRequest :=
  foldl (fun acc r => <[RequestID r := r]> acc) ∅ (mock_refunds now).

Definition QueryRefund (refunds : gmap string RefundRequest) (refundID : string)
  : Result RefundRequest :=
  match refunds !! refundID with
  | None => Err ("退款申请不存在: " ++ refundID)
  | Some refund => Ok refund
  end.

(** [ProcessRefund]; [draw] is the value of [rand.Intn(10)] and [now] the
    clock stored as process time.  The simulated delay is not modelled. *)
Definition ProcessRefund (refunds : gmap string RefundRequest) (refundID : string)
    (draw : Z) (now : Time) : Result RefundRequest * gmap string RefundRequest :=
  match refunds !! refundID with
  | None => (Err ("退款申请不存在: " ++ refundID), refunds)
  | Some refund =>
      if negb (String.eqb (RefundStatus refund) "处理中") then
        (Err ("退款申请已处理，当前状态: " ++ RefundStatus refund), refunds)
      else
        let approved := (2 <? draw)%Z in
        let refund' :=
          {| RefundOrderID := RefundOrderID refund; Reason := Reason refund;
             Amount := Amount refund; RequestTime := RequestTime refund;
             RefundStatus := if approved then "已批准" else "已拒绝";
             RequestID := RequestID refund; ProcessTime := now;
             Response :=
               if approved
               then "退款已批准，将在3-5个工作日内原路退回您的支付账户"
               else "抱歉，根据退款政策，您的申请不符合退款条件" |} in
        (Ok refund', <[refundID := refund']> refunds)
  end.

End BusinessTools.

(** ** pkg/conversation: session state, step flow and managers *)

Module Conversation.

Import GoStrings.
Import BusinessTools.

Record Message : Type := {
  Role : string;
  Content : string;
  Timestamp : Time;
  Metadata : option (gmap string Value)
}.

Record ConversationState : Type := {
  SessionID : string;
  UserID : string;
  CurrentStep : string;
  Context : gmap string Value;
  History : list Message;
  LastActivity : Time;
  CreatedAt : Time
}.

Definition ErrStateNotFound : error := "conversation state not found".

(** Field assignments through a [*ConversationState]. *)
Definition set_CurrentStep (step : string) (st : ConversationState) : ConversationState :=
  {| SessionID := SessionID st; UserID := UserID st; CurrentStep := step;
     Context := Context st; History := History st;
     LastActivity := LastActivity st; CreatedAt := CreatedAt st |}.

Definition set_Context (ctx : gmap string Value) (st : ConversationState)
  : ConversationState :=
  {| SessionID := SessionID st; UserID := UserID st; CurrentStep := CurrentStep st;
     Context := ctx; History := History st;
     LastActivity := LastActivity st; CreatedAt := CreatedAt st |}.

Definition set_History (h : list Message) (st : ConversationState) : ConversationState :=
  {| SessionID := SessionID st; UserID := UserID st; CurrentStep := CurrentStep st;
     Context := Context st; History := h;
     LastActivity := LastActivity st; CreatedAt := CreatedAt st |}.

Definition set_LastActivity (t : Time) (st : ConversationState) : ConversationState :=
  {| SessionID := SessionID st; UserID := UserID st; CurrentStep := CurrentStep st;
     Context := Context st; History := History st;
     LastActivity := t; CreatedAt := CreatedAt st |}.

(** *** The step flow *)

(** The [ConversationStep] interface.  [Execute] works on the state it is
    given a pointer to and returns the state it leaves there. *)
Record ConversationStep : Type := {
  GetName : string;
  Execute : ConversationState -> string -> Result string * ConversationState;
  CanTransition : ConversationState -> string -> bool
}.

(** [extractOrderID] of the step flow: the leftmost match of [ORD\w+]. *)
Definition extractOrderID (text : string) : string :=
  match find_first match_ORD_word text with
  | Some tok => tok
  | None => ""
  end.

Definition refund_reasons : list string :=
  ["质量问题"; "不想要了"; "发错货"; "损坏"; "不符合描述"].

Definition extractRefundReason (text : string) : string :=
  match first_contained text refund_reasons with
  | Some reason => reason
  | None => ""
  end.

Definition queryOrderStatus (orderID : string) : string :=
  "订单状态：已发货" ++ nl ++ "物流信息：顺丰快递，单号SF123456789" ++ nl ++ "预计送达：明天".

Definition processRefundRequest (orderID reason : string) : string :=
  "退款申请已提交" ++ nl ++ "退款原因：" ++ reason ++ nl ++ "处理状态：审核中" ++ nl
  ++ "预计完成时间：3-5个工作日".

Definition GreetingStep : ConversationStep := {|
  GetName := "greeting";
  Execute := fun state input =>
    if Contains input "查订单" || Contains input "订单" then
      (Ok "请提供您的订单号，以便我为您查询订单信息。",
       set_CurrentStep "order_query" state)
    else if Contains input "退款" || Contains input "退单" then
      (Ok "请提供您的订单号和退款原因，我将为您处理退款申请。",
       set_CurrentStep "refund_request" state)
    else
      (Ok "您好！我是智能客服助手，可以帮您查询订单、处理退款等。请问有什么可以帮助您的？",
       state);
  CanTransition := fun _ _ => false
|}.

Definition reprompt_order_id : string :=
  "抱歉，我没有找到有效的订单号。请提供您的订单号，格式通常为'ORD'开头的字符串。".

Definition OrderQueryStep : ConversationStep := {|
  GetName := "order_query";
  Execute := fun state input =>
    let orderID := extractOrderID input in
    if String.eqb orderID "" then (Ok reprompt_order_id, state)
    else
      let state1 := set_Context (<["order_id" := VString orderID]> (Context state)) state in
      let orderStatus := queryOrderStatus orderID in
      let state2 := set_CurrentStep "greeting" state1 in
      (Ok ("订单查询结果：" ++ nl ++ "订单号：" ++ orderID ++ nl ++ orderStatus), state2);
  CanTransition := fun state input =>
    negb (String.eqb (CurrentStep state) "order_query") &&
    (Contains input "查订单" || Contains input "订单")
|}.

Definition RefundRequestStep : ConversationStep := {|
  GetName := "refund_request";
  Execute := fun state input =>
    let orderID := extractOrderID input in
    if String.eqb orderID "" then (Ok reprompt_order_id, state)
    else
      let state1 := set_Context (<["order_id" := VString orderID]> (Context state)) state in
      let refundReason := extractRefundReason input in
      if String.eqb refundReason "" then
        (Ok "请说明您的退款原因，例如：商品质量问题、不想要了、发错货等。",
         set_Context (<["awaiting_refund_reason" := VBool true]> (Context state1)) state1)
      else
        let state2 :=
          set_Context (<["refund_reason" := VString refundReason]> (Context state1)) state1 in
        let state3 :=
          set_Context (delete "awaiting_refund_reason" (Context state2)) state2 in
        let refundResult := processRefundRequest orderID refundReason in
        let state4 := set_CurrentStep "greeting" state3 in
        (Ok ("退款申请结果：" ++ nl ++ "订单号：" ++ orderID ++ nl ++ refundResult), state4);
  CanTransition := fun state input =>
    negb (String.eqb (CurrentStep state) "refund_request") &&
    (Contains input "退款" || Contains input "退单")
|}.

Record StepRegistry : Type := { steps : gmap string ConversationStep }.

Definition NewStepRegistry : StepRegistry := {| steps := ∅ |}.

Definition Register (r : StepRegistry) (step : ConversationStep) : StepRegistry :=
  {| steps := <[GetName step := step]> (steps r) |}.

Definition Get (r : StepRegistry) (name : string) : option ConversationStep :=
  steps r !! name.

Record ConversationFlow : Type := { registry : StepRegistry }.

Definition RegisterStep (f : ConversationFlow) (step : ConversationStep)
  : ConversationFlow :=
  {| registry := Register (registry f) step |}.

Definition default_steps : list ConversationStep :=
  [GreetingStep; OrderQueryStep; RefundRequestStep].

(** [NewConversationFlow] with [registerDefaultSteps]. *)
Definition NewConversationFlow : ConversationFlow :=
  foldl RegisterStep {| registry := NewStepRegistry |} default_steps.

(** The loop that ends [ProcessInput]: the first step of the range whose
    name differs from the current step and that accepts the transition
    becomes the current step.  [range] lists the registered steps in the
    order in which the runtime yields them. *)
Definition transition (range : list ConversationStep) (state : ConversationState)
    (input : string) : ConversationState :=
  match List.find
          (fun step => negb (String.eqb (GetName step) (CurrentStep state))
                       && CanTransition step state input) range with
  | Some step => set_CurrentStep (GetName step) state
  | None => state
  end.

Definition ProcessInput (range : list ConversationStep) (f : ConversationFlow)
    (state : ConversationState) (input : string)
  : Result string * ConversationState :=
  match Get (registry f) (CurrentStep state) with
  | None => (Err ("未找到当前步骤: " ++ CurrentStep state), state)
  | Some currentStep =>
      match Execute currentStep state input with
      | (Err e, state1) => (Err ("执行步骤失败: " ++ e), state1)
      | (Panic p, state1) => (Panic p, state1)
      | (Ok response, state1) => (Ok response, transition range state1 input)
      end
  end.

(** *** The session store and the calls that read the outside world *)

(** What a turn can change: the table of the state manager, the table of
    the refund tool, and [tick], the number of readings of the outside
    world made so far.  The table maps a session id to the state object
    that the Go map points to; a [*ConversationState] obtained from the
    table is that entry. *)
Record World : Type := {
  states : gmap string ConversationState;
  refunds : gmap string RefundRequest;
  tick : nat
}.

Definition set_states (s : gmap string ConversationState) (w : World) : World :=
  {| states := s; refunds := refunds w; tick := tick w |}.
Definition set_refunds (r : gmap string RefundRequest) (w : World) : World :=
  {| states := states w; refunds := r; tick := tick w |}.
Definition advance (n : nat) (w : World) : World :=
  {| states := states w; refunds := refunds w; tick := (tick w + n)%nat |}.

(** A Go function that works on the world. *)
Definition M (A : Type) : Type := World -> Result A * World.

Definition ret {A} (a : A) : M A := fun w => (Ok a, w).
Definition fail {A} (e : error) : M A := fun w => (Err e, w).
Definition panic {A} (msg : string) : M A := fun w => (Panic msg, w).

(** Sequencing; an error or a panic of the first part ends the function. *)
Definition bind {A B} (m : M A) (k : A -> M B) : M B :=
  fun w =>
    match m w with
    | (Ok a, w') => k a w'
    | (Err e, w') => (Err e, w')
    | (Panic p, w') => (Panic p, w')
    end.

(** [if err != nil { return fmt.Errorf(prefix + "%w", err) }] *)
Definition wrap {A} (prefix : string) (m : M A) : M A :=
  fun w =>
    match m w with
    | (Err e, w') => (Err (prefix ++ e), w')
    | r => r
    end.

Notation "'let*' x ':=' m 'in' k" := (bind m (fun x => k))
  (at level 10, x name, m at level 200, k at level 200).
Notation "'run' m 'then' k" := (bind m (fun _ => k))
  (at level 10, m at level 200, k at level 200).

Section Collaborators.

(** [clock k] is the value of [time.Now()] and [rand_Intn k] the value of
    [rand.Intn(100000)] when read as the [k]-th reading of the outside
    world; [chatModel k query] is what compiling and invoking the chat
    chain yields then. *)
Variable clock : nat -> Time.
Variable rand_Intn : nat -> Z.
Variable chatModel : nat -> string -> Result string.
(** The order tool, with its table as filled at start-up. *)
Variable orderTool : QueryOrder.
(** The text layouts of an order (which reads the clock) and of a
    refund request. *)
Variable FormatOrderInfo : Time -> OrderInfo -> string.
Variable FormatRefundInfo : RefundRequest -> string.

Definition time_Now : M Time :=
  fun w => (Ok (clock (tick w)), advance 1 w).

(** **** state.go *)

Definition GetState (sessionID : string) : M (option ConversationState) :=
  fun w => (Ok (states w !! sessionID), w).

Definition CreateState (sessionID userID : string) : M ConversationState :=
  let* now := time_Now in
  let state :=
    {| SessionID := sessionID; UserID := userID; CurrentStep := "greeting";
       Context := ∅; History := [];
       LastActivity := now; CreatedAt := now |} in
  fun w => (Ok state, set_states (<[sessionID := state]> (states w)) w).

Definition UpdateState (sessionID : string)
    (updateFunc : ConversationState -> M ConversationState) : M unit :=
  let* found := GetState sessionID in
  match found with
  | None => fail ErrStateNotFound
  | Some state =>
      let* state1 := updateFunc state in
      let* now := time_Now in
      fun w =>
        (Ok tt,
         set_states (<[sessionID := set_LastActivity now state1]> (states w)) w)
  end.

Definition AddMessage (sessionID role content : string)
    (metadata : option (gmap string Value)) : M unit :=
  UpdateState sessionID (fun state =>
    let* now := time_Now in
    let message :=
      {| Role := role; Content := content; Timestamp := now; Metadata := metadata |} in
    ret (set_History (History state ++ [message])%list state)).

Definition SetCurrentStep (sessionID step : string) : M unit :=
  UpdateState sessionID (fun state => ret (set_CurrentStep step state)).

Definition SetContext (sessionID key : string) (value : Value) : M unit :=
  UpdateState sessionID (fun state =>
    ret (set_Context (<[key := value]> (Context state)) state)).

Definition GetContext (sessionID key : string) : M (option Value) :=
  fun w =>
    match states w !! sessionID with
    | None => (Ok None, w)
    | Some state => (Ok (Context state !! key), w)
    end.

Definition RemoveState (sessionID : string) : M unit :=
  fun w => (Ok tt, set_states (delete sessionID (states w)) w).

(** **** The conversation manager *)

Definition GetOrCreateState (sessionID userID : string) : M ConversationState :=
  let* found := GetState sessionID in
  match found with
  | Some state => ret state
  | None => CreateState sessionID userID
  end.

Definition GetCurrentStep (sessionID : string) : M string :=
  let* found := GetState sessionID in
  match found with
  | None => fail ErrStateNotFound
  | Some state => ret (CurrentStep state)
  end.

(** A call that works through the pointer [states[sessionID]].  The
    pointer was read from the table earlier in the same turn and nothing
    removes entries during a turn, so the entry is there; the other case
    is kept only to make the function total. *)
Definition through_pointer {A} (sessionID : string)
    (f : ConversationState -> Result A * ConversationState) : M A :=
  fun w =>
    match states w !! sessionID with
    | None => (Panic "nil pointer dereference", w)
    | Some state =>
        let '(r, state') := f state in
        (r, set_states (<[sessionID := state']> (states w)) w)
    end.

(** [Manager.ProcessMessage], the turn of the step flow. *)
Definition Manager_ProcessMessage (range : list ConversationStep)
    (flow : ConversationFlow) (sessionID userID message : string) : M string :=
  run GetOrCreateState sessionID userID then
  run wrap "添加用户消息失败: " (AddMessage sessionID "user" message None) then
  let* response :=
    wrap "处理消息失败: "
      (through_pointer sessionID (fun state => ProcessInput range flow state message)) in
  run wrap "添加助手消息失败: " (AddMessage sessionID "assistant" response None) then
  ret response.

  (** **** The multi-turn handler *)

(** [MultiTurnConversation.extractOrderID]: among the matches of
    [[A-Za-z]*\d{6,}], the first whose upper-case form contains [ORD],
    else the first one, in upper case. *)
Definition MultiTurn_extractOrderID (message : string) : string :=
  let matches := find_all match_letters_digits message in
  match List.find (fun m => Contains (ToUpper m) "ORD") matches with
  | Some m => ToUpper m
  | None =>
      match matches with
      | m :: _ => ToUpper m
      | [] => ""
      end
  end.

Definition orderKeywords : list string :=
  ["查订单"; "查询订单"; "订单状态"; "我的订单"; "查一下订单"; "订单信息"].
Definition refundKeywords : list string :=
  ["退款"; "退货"; "申请退款"; "我要退款"; "怎么退款"; "退款申请"].

Definition detectIntent (message : string) : string :=
  let lowerMessage := ToLower message in
  match first_contained lowerMessage orderKeywords with
  | Some _ => "order_query"
  | None =>
      match first_contained lowerMessage refundKeywords with
      | Some _ => "refund_request"
      | None => "general"
      end
  end.

Definition MultiTurn_processOrderQuery (sessionID orderID : string) : M string :=
  match Query orderTool orderID with
  | Err e => ret ("查询订单失败: " ++ e)
  | Panic p => panic p
  | Ok orderInfo =>
      let* now := time_Now in
      let formattedInfo := FormatOrderInfo now orderInfo in
      run wrap "重置对话步骤失败: " (SetCurrentStep sessionID "greeting") then
      ret ("查询成功！以下是您的订单信息：" ++ nl ++ nl ++ formattedInfo ++ nl ++ nl
           ++ "还有其他可以帮助您的吗？")
  end.

(** [refundTool.SubmitRefund] on the world: three readings (the clock of
    the eligibility check, the random id, the request time). *)
Definition RefundTool_SubmitRefund (orderID reason : string) : M RefundRequest :=
  fun w =>
    let '(r, refunds') :=
      SubmitRefund orderTool (clock (tick w)) (clock (tick w + 2)%nat)
        (rand_Intn (tick w + 1)%nat) (refunds w) orderID reason in
    (r, advance 3 (set_refunds refunds' w)).

Definition MultiTurn_processRefundRequest (sessionID orderID reason : string)
  : M string :=
  fun w =>
    match RefundTool_SubmitRefund orderID reason w with
    | (Err e, w') => (Ok ("退款申请失败: " ++ e), w')
    | (Panic p, w') => (Panic p, w')
    | (Ok refundInfo, w') =>
        (let formattedInfo := FormatRefundInfo refundInfo in
         run wrap "重置对话步骤失败: " (SetCurrentStep sessionID "greeting") then
         ret ("退款申请已提交！以下是您的申请信息：" ++ nl ++ nl ++ formattedInfo ++ nl ++ nl
              ++ "还有其他可以帮助您的吗？")) w'
    end.

Definition ask_order_id_for_query : string :=
  "好的，我可以帮您查询订单信息。请提供您的订单号，通常以'ORD'开头。".
Definition ask_order_id_for_refund : string :=
  "好的，我可以帮您处理退款申请。请提供您的订单号，通常以'ORD'开头。".
Definition ask_refund_reason (orderID : string) : string :=
  "好的，您要为订单 " ++ orderID ++ " 申请退款。请告诉我退款原因，例如：商品质量问题、不想要了等。".
Definition order_id_not_found : string :=
  "抱歉，我没有找到有效的订单号。请提供您的订单号，通常以'ORD'开头。".
Definition general_greeting : string :=
  "您好！我是智能客服助手，可以帮助您查询订单信息、处理退款申请等。请问有什么可以帮助您的吗？".
Definition refund_already_submitted : string :=
  "您已经提交了退款申请，正在处理中。请稍等片刻，或者您可以提供新的订单号来申请其他订单的退款。".

(** The type assertion [v.(string)]. *)
Definition as_string (v : Value) : M string :=
  match v with
  | VString s => ret s
  | _ => panic "interface conversion: interface {} is not string"
  end.

Definition startOrderQuery (sessionID : string) : M string :=
  run wrap "设置当前步骤失败: " (SetCurrentStep sessionID "order_query") then
  let* found := GetState sessionID in
  match found with
  | None => fail ("获取状态失败: " ++ ErrStateNotFound)
  | Some state =>
      match Context state !! "order_id" with
      | Some v =>
          let* orderID := as_string v in
          MultiTurn_processOrderQuery sessionID orderID
      | None => ret ask_order_id_for_query
      end
  end.

Definition handleOrderQueryStep (sessionID message : string) : M string :=
  let orderID := MultiTurn_extractOrderID message in
  if String.eqb orderID "" then ret order_id_not_found
  else
    run wrap "保存订单号失败: " (SetContext sessionID "order_id" (VString orderID)) then
    MultiTurn_processOrderQuery sessionID orderID.

Definition startRefundRequest (sessionID : string) : M string :=
  run wrap "设置当前步骤失败: " (SetCurrentStep sessionID "refund_request") then
  let* found := GetState sessionID in
  match found with
  | None => fail ("获取状态失败: " ++ ErrStateNotFound)
  | Some state =>
      match Context state !! "order_id" with
      | Some v =>
          match Context state !! "refund_reason" with
          | Some r =>
              let* orderID := as_string v in
              let* reason := as_string r in
              MultiTurn_processRefundRequest sessionID orderID reason
          | None =>
              let* orderID := as_string v in
              ret (ask_refund_reason orderID)
          end
      | None => ret ask_order_id_for_refund
      end
  end.

Definition handleRefundRequestStep (sessionID message : string) : M string :=
  let* found := GetState sessionID in
  match found with
  | None => fail ("获取状态失败: " ++ ErrStateNotFound)
  | Some state =>
      match Context state !! "order_id" with
      | None =>
          let orderID := MultiTurn_extractOrderID message in
          if String.eqb orderID "" then ret order_id_not_found
          else
            run wrap "保存订单号失败: "
                  (SetContext sessionID "order_id" (VString orderID)) then
            ret (ask_refund_reason orderID)
      | Some v =>
          match Context state !! "refund_reason" with
          | None =>
              run wrap "保存退款原因失败: "
                    (SetContext sessionID "refund_reason" (VString message)) then
              let* orderID := as_string v in
              MultiTurn_processRefundRequest sessionID orderID message
          | Some _ => ret refund_already_submitted
          end
      end
  end.

Definition handleGeneralChat (sessionID message : string) : M string :=
  fun w => (chatModel (tick w) message, advance 1 w).

Definition handleGreetingStep (sessionID message : string) : M string :=
  let intent := detectIntent message in
  if String.eqb intent "order_query" then startOrderQuery sessionID
  else if String.eqb intent "refund_request" then startRefundRequest sessionID
  else ret general_greeting.

(** The [default] branch of the switch of [ProcessMessage]. *)
Definition handleUnknownStep (sessionID userMessage : string) : M string :=
  let intent := detectIntent userMessage in
  if String.eqb intent "order_query" then startOrderQuery sessionID
  else if String.eqb intent "refund_request" then startRefundRequest sessionID
  else handleGeneralChat sessionID userMessage.

(** [currentStep, err := GetCurrentStep(sessionID); if err != nil { currentStep = "greeting" }] *)
Definition currentStep_or_greeting (sessionID : string) : M string :=
  fun w =>
    match GetCurrentStep sessionID w with
    | (Err _, w') => (Ok "greeting", w')
    | r => r
    end.

(** The [switch currentStep] of [ProcessMessage]. *)
Definition handle_by_step (currentStep sessionID userMessage : string) : M string :=
  if String.eqb currentStep "greeting" then handleGreetingStep sessionID userMessage
  else if String.eqb currentStep "order_query" then
    handleOrderQueryStep sessionID userMessage
  else if String.eqb currentStep "refund_request" then
    handleRefundRequestStep sessionID userMessage
  else handleUnknownStep sessionID userMessage.

(** [MultiTurnConversation.ProcessMessage] *)
Definition MultiTurn_ProcessMessage (sessionID userMessage : string) : M string :=
  run GetOrCreateState sessionID "default_user" then
  run wrap "添加用户消息失败: " (AddMessage sessionID "user" userMessage None) then
  let* currentStep := currentStep_or_greeting sessionID in
  let* response := handle_by_step currentStep sessionID userMessage in
  run wrap "添加助手消息失败: " (AddMessage sessionID "assistant" response None) then
  ret response.

(** **** More of the state manager and of the conversation manager *)

(** [ClearExpiredStates]: every session whose last activity is older than
    [expiration] at the clock reading is deleted. *)
Definition ClearExpiredStates (expiration : Duration) : M unit :=
  let* now := time_Now in
  fun w =>
    (Ok tt,
     set_states
       (filter (fun entry => (now - LastActivity entry.2 <= expiration)%Z) (states w)) w).

(** [Manager.ResetConversation] writes through the pointer it got from
    [GetState]. *)
Definition ResetConversation (sessionID : string) : M unit :=
  let* found := GetState sessionID in
  match found with
  | None => fail ErrStateNotFound
  | Some state =>
      let* now := time_Now in
      fun w =>
        (Ok tt,
         set_states
           (<[sessionID :=
                set_LastActivity now
                  (set_History [] (set_Context ∅ (set_CurrentStep "greeting" state)))]>
              (states w)) w)
  end.

Definition GetConversationHistory (sessionID : string) : M (list Message) :=
  let* found := GetState sessionID in
  match found with
  | None => fail ErrStateNotFound
  | Some state => ret (History state)
  end.

(** [ConversationService.ProcessMultiTurnMessage] *)
Definition ProcessMultiTurnMessage (sessionID message : string) : M string :=
  wrap "处理多轮对话失败: " (MultiTurn_ProcessMessage sessionID message).

End Collaborators.

End Conversation.

(** ** pkg/graph/workflow.go: the tool-calling loop *)

Module Graph.

Import Tools.

Record Message : Type := { Role : string; Content : string }.

Record ToolCall : Type := {
  ID : string;
  Name : string;
  Args : gmap string Value
}.

(** [ResultMap] is the field [Result]; a nil map is [None]. *)
Record ToolResult : Type := {
  ToolCallID : string;
  ResultMap : option (gmap string Value);
  Error : string
}.

Record State : Type := {
  Messages : list Message;
  ToolCalls : list ToolCall;
  ToolResults : list ToolResult;
  NextAction : string;
  IsComplete : bool
}.

Record ModelResponse : Type := {
  ResponseContent : string;
  ResponseToolCalls : list ToolCall
}.

Record Workflow : Type := {
  toolManager : ToolManager;
  state : State
}.

(** The [llm] package: what the client is sent and what it answers. *)
Record ChatMessage : Type := { role : string; content : string }.

Record ToolDefinition : Type := {
  def_type : string;
  def_name : string;
  def_description : string;
  def_parameters : gmap string Value
}.

Record ToolCallFunction : Type := {
  FunctionName : string;
  Arguments : gmap string Value
}.

Record LLMToolCall : Type := { CallID : string; Function : ToolCallFunction }.

Record ChatResponse : Type := {
  ChatContent : string;
  ChatToolCalls : list LLMToolCall
}.

Definition set_state (s : State) (w : Workflow) : Workflow :=
  {| toolManager := toolManager w; state := s |}.

Definition NewWorkflow (tm : ToolManager) : Workflow :=
  {| toolManager := tm;
     state := {| Messages := []; ToolCalls := []; ToolResults := [];
                 NextAction := ""; IsComplete := false |} |}.

Definition Reset (w : Workflow) : Workflow := NewWorkflow (toolManager w).

Definition add_message (m : Message) (s : State) : State :=
  {| Messages := (Messages s ++ [m])%list; ToolCalls := ToolCalls s;
     ToolResults := ToolResults s; NextAction := NextAction s;
     IsComplete := IsComplete s |}.

Definition add_tool_calls (tcs : list ToolCall) (s : State) : State :=
  {| Messages := Messages s; ToolCalls := (ToolCalls s ++ tcs)%list;
     ToolResults := ToolResults s; NextAction := NextAction s;
     IsComplete := IsComplete s |}.

Definition add_tool_result (r : ToolResult) (s : State) : State :=
  {| Messages := Messages s; ToolCalls := ToolCalls s;
     ToolResults := (ToolResults s ++ [r])%list; NextAction := NextAction s;
     IsComplete := IsComplete s |}.

Definition set_complete (s : State) : State :=
  {| Messages := Messages s; ToolCalls := ToolCalls s;
     ToolResults := ToolResults s; NextAction := NextAction s;
     IsComplete := true |}.

(** [strings.Join] *)
Fixpoint Join (elems : list string) (sep : string) : string :=
  match elems with
  | [] => ""
  | [e] => e
  | e :: rest => e ++ sep ++ Join rest sep
  end.

Section Collaborators.

(** [Chat n messages tools] is the answer of the model client to the
    [n]-th call of the turn. *)
Variable Chat : nat -> list ChatMessage -> list ToolDefinition -> Result ChatResponse.
(** The order in which the runtime ranges over the tool table, at the
    [k]-th range of the turn. *)
Variable range_tools : nat -> gmap string ToolFunction -> list ToolFunction.
Variable json_Marshal : option (gmap string Value) -> string.

Definition buildSystemPrompt (k : nat) (w : Workflow) : string :=
  let tools := ToolManager_GetAllTools (toolManager w) in
  let toolDescriptions :=
    map (fun tool => "- " ++ GetName tool ++ ": " ++ GetDescription tool)
        (range_tools k tools) in
  "你是一个智能助手，可以帮助用户处理订单查询、退款申请和发票相关的问题。" ++ nl ++ nl
  ++ "可用工具:" ++ nl ++ Join toolDescriptions nl ++ nl ++ nl
  ++ "使用工具的规则:" ++ nl
  ++ "1. 当用户需要查询订单信息时，使用order_query_tool" ++ nl
  ++ "2. 当用户需要申请退款时，使用refund_request_tool" ++ nl
  ++ "3. 当用户需要创建或查询发票时，使用invoice_tool" ++ nl ++ nl
  ++ "请根据用户的问题，选择合适的工具来帮助用户。如果不需要使用工具，可以直接回答用户的问题。".

Definition tool_result_message (result : ToolResult) : ChatMessage :=
  {| role := "tool";
     content :=
       if negb (String.eqb (Error result) "")
       then "工具执行出错: " ++ Error result
       else json_Marshal (ResultMap result) |}.

(** The message list of [callModel]: the system prompt, the history,
    the tool results. *)
Definition build_messages (k : nat) (w : Workflow) : list ChatMessage :=
  ({| role := "system"; content := buildSystemPrompt k w |}
   :: map (fun msg => {| role := Role msg; content := Content msg |})
          (Messages (state w))
   ++ map tool_result_message (ToolResults (state w)))%list.

Definition build_tool_definitions (k : nat) (w : Workflow) : list ToolDefinition :=
  map (fun tool =>
         {| def_type := "function"; def_name := GetName tool;
            def_description := GetDescription tool;
            def_parameters := GetParameters tool |})
      (range_tools k (ToolManager_GetAllTools (toolManager w))).

Definition convert_tool_call (tc : LLMToolCall) : ToolCall :=
  {| ID := CallID tc; Name := FunctionName (Function tc);
     Args := Arguments (Function tc) |}.

(** [callModel] at the [n]-th iteration of the loop. *)
Definition callModel (n : nat) (w : Workflow) : Result ModelResponse :=
  match Chat n (build_messages (2 * n) w) (build_tool_definitions (2 * n + 1) w) with
  | Err e => Err e
  | Panic p => Panic p
  | Ok response =>
      Ok {| ResponseContent := ChatContent response;
            ResponseToolCalls := map convert_tool_call (ChatToolCalls response) |}
  end.

Definition executeTool (w : Workflow) (toolCall : ToolCall)
  : gmap string Value * option error :=
  match ToolManager_GetTool (toolManager w) (Name toolCall) with
  | None => (∅, Some ("工具不存在: " ++ Name toolCall))
  | Some tool => Call tool (Args toolCall)
  end.

(** The [toolResult] built for a tool call, from the error or from the
    result of the tool. *)
Definition tool_result_of (w : Workflow) (toolCall : ToolCall) : ToolResult :=
  match executeTool w toolCall with
  | (_, Some err) => {| ToolCallID := ID toolCall; ResultMap := None; Error := err |}
  | (result, None) =>
      {| ToolCallID := ID toolCall; ResultMap := Some result; Error := "" |}
  end.

(** The body of [for _, toolCall := range response.ToolCalls]. *)
Definition run_tool_call (w : Workflow) (toolCall : ToolCall) : Workflow :=
  set_state (add_tool_result (tool_result_of w toolCall) (state w)) w.

(** One pass through the body of [for !w.state.IsComplete]: the error
    that ends [ProcessMessage], if any, and the workflow. *)
Definition iteration (n : nat) (w : Workflow) : Result unit * Workflow :=
  match callModel n w with
  | Err e => (Err ("调用模型失败: " ++ e), w)
  | Panic p => (Panic p, w)
  | Ok response =>
      let w1 :=
        set_state (add_message {| Role := "assistant";
                                  Content := ResponseContent response |} (state w)) w in
      match ResponseToolCalls response with
      | [] => (Ok tt, set_state (set_complete (state w1)) w1)
      | toolCalls =>
          let w2 := set_state (add_tool_calls toolCalls (state w1)) w1 in
          (Ok tt, foldl run_tool_call w2 toolCalls)
      end
  end.

(** The loop, [n] counting the model calls made.  [fuel] bounds the
    number of passes the model follows; [None] means that the loop is
    still running after them. *)
Fixpoint loop (fuel : nat) (n : nat) (w : Workflow) : option (Result unit * Workflow) :=
  if IsComplete (state w) then Some (Ok tt, w)
  else
    match fuel with
    | O => None
    | S fuel' =>
        match iteration n w with
        | (Ok _, w') => loop fuel' (S n) w'
        | r => Some r
        end
    end.

Definition last_assistant_reply (w : Workflow) : Result string :=
  match last (Messages (state w)) with
  | Some lastMessage =>
      if String.eqb (Role lastMessage) "assistant" then Ok (Content lastMessage)
      else Err "未找到有效的回复"
  | None => Err "未找到有效的回复"
  end.

(** [Workflow.ProcessMessage] *)
Definition ProcessMessage (fuel : nat) (w : Workflow) (userMessage : string)
  : option (Result string * Workflow) :=
  let w0 :=
    set_state (add_message {| Role := "user"; Content := userMessage |} (state w)) w in
  match loop fuel 0 w0 with
  | None => None
  | Some (Ok _, w') => Some (last_assistant_reply w', w')
  | Some (Err e, w') => Some (Err e, w')
  | Some (Panic p, w') => Some (Panic p, w')
  end.

(** [WorkflowService.ProcessMessage]: reset the workflow, process the
    message, wrap the error. *)
Definition WorkflowService_ProcessMessage (fuel : nat) (w : Workflow)
    (message : string) : option (Result string * Workflow) :=
  match ProcessMessage fuel (Reset w) message with
  | Some (Err e, w') => Some (Err ("工作流处理消息失败: " ++ e), w')
  | r => r
  end.

End Collaborators.

End Graph.

(** * Statements *)

(** Predicates in which the properties below are stated. *)

Module Statements.

(** The error of [RegisterTool] for a name that is taken. *)
Definition duplicate_error (n : string) : error :=
  "tool with name '" ++ n ++ "' already registered".

(** Registering [t1] and then [t2], both named [n], fails the second time
    with the duplicate-name error and leaves the registry as the first
    call left it. *)
Definition second_register_is_duplicate (r : Tools.ToolRegistry) (n : string)
    (t1 t2 : Tools.ToolFunction) : Prop :=
  let r1 := (Tools.RegisterTool r (Some t1)).2 in
  is_Some (Tools.GetTool r1 n) /\
  Tools.RegisterTool r1 (Some t2) = (Some (duplicate_error n), r1).

(** Registering [t1], unregistering [n], and registering [t2] succeeds. *)
Definition reregister_after_unregister_succeeds (r : Tools.ToolRegistry) (n : string)
    (t1 t2 : Tools.ToolFunction) : Prop :=
  let r1 := (Tools.RegisterTool r (Some t1)).2 in
  exists r2 r3,
    Tools.UnregisterTool r1 n = (None, r2) /\
    Tools.RegisterTool r2 (Some t2) = (None, r3) /\
    Tools.GetTool r3 n = Some t2.

(** A tool with a given name, for examples. *)
Definition sample_tool (name : string) : Tools.ToolFunction :=
  {| Tools.GetName := name; Tools.GetDescription := "sample";
     Tools.GetParameters := ∅; Tools.Call := fun args => (args, None) |}.

(** The session that [CreateState] builds at clock reading [now]. *)
Definition fresh_session (sessionID userID : string) (now : Time)
  : Conversation.ConversationState :=
  {| Conversation.SessionID := sessionID; Conversation.UserID := userID;
     Conversation.CurrentStep := "greeting"; Conversation.Context := ∅;
     Conversation.History := []; Conversation.LastActivity := now;
     Conversation.CreatedAt := now |}.

(** The names of the steps that [NewConversationFlow] registers. *)
Definition known_step (name : string) : Prop :=
  name = "greeting" \/ name = "order_query" \/ name = "refund_request".

(** [name] is registered in the step registry of [flow]. *)
Definition registered (flow : Conversation.ConversationFlow) (name : string) : Prop :=
  is_Some (Conversation.Get (Conversation.registry flow) name).

(** [range] is an order in which the runtime may yield the steps of
    [flow] when the code ranges over the registry. *)
Definition range_of (flow : Conversation.ConversationFlow)
    (range : list Conversation.ConversationStep) : Prop :=
  Permutation range
    (map snd (map_to_list (Conversation.steps (Conversation.registry flow)))).

(** The session [sessionID] is in the table of [w], at step [step] and with
    context [ctx]. *)
Definition session_has (w : Conversation.World) (sessionID step : string)
    (ctx : gmap string Value) : Prop :=
  exists state,
    Conversation.states w !! sessionID = Some state /\
    Conversation.CurrentStep state = step /\
    Conversation.Context state = ctx.

(** The answer of the multi-turn handler to a refund that was submitted. *)
Definition refund_submitted (formattedInfo : string) : string :=
  "退款申请已提交！以下是您的申请信息：" ++ nl ++ nl ++ formattedInfo ++ nl ++ nl
  ++ "还有其他可以帮助您的吗？".

(** The answer of the multi-turn handler to an order that was found. *)
Definition order_found (formattedInfo : string) : string :=
  "查询成功！以下是您的订单信息：" ++ nl ++ nl ++ formattedInfo ++ nl ++ nl
  ++ "还有其他可以帮助您的吗？".

(** The call produces a response. *)
Definition produces_response {S : Type} (outcome : Result string * S) : Prop :=
  exists response, outcome.1 = Ok response.

(** A session left at a step that no step machine knows, the world that
    holds it, and collaborators for examples: a clock, a random source, a
    chat model that is down, text layouts. *)
Definition lost_session : Conversation.ConversationState :=
  {| Conversation.SessionID := "s1"; Conversation.UserID := "u1";
     Conversation.CurrentStep := "checkout"; Conversation.Context := ∅;
     Conversation.History := []; Conversation.LastActivity := 0;
     Conversation.CreatedAt := 0 |}.

Definition lost_world : Conversation.World :=
  {| Conversation.states := <["s1" := lost_session]> ∅;
     Conversation.refunds := ∅; Conversation.tick := 0 |}.

Definition sample_clock (k : nat) : Time := Z.of_nat k.
Definition sample_rand (k : nat) : Z := 4242.
Definition chat_down (k : nat) (query : string) : Result string :=
  Err "connection refused".
Definition sample_order_layout (now : Time) (o : BusinessTools.OrderInfo) : string :=
  BusinessTools.OrderID o.
Definition sample_refund_layout (r : BusinessTools.RefundRequest) : string :=
  BusinessTools.RequestID r.

(** The mock order [ORD789012], delivered two days before the order tool
    was created at [now], and the refund request that [SubmitRefund]
    builds for it. *)
Definition delivered_order (now : Time) : BusinessTools.OrderInfo :=
  {| BusinessTools.OrderID := "ORD789012"; BusinessTools.Status := "已送达";
     BusinessTools.CreateTime := now - 120 * Hour;
     BusinessTools.PayTime := now - 119 * Hour;
     BusinessTools.ShipTime := now - 96 * Hour;
     BusinessTools.ProductList :=
       [ {| BusinessTools.ProductID := "P003"; BusinessTools.ProductName := "蓝牙耳机";
            BusinessTools.Price := 39900; BusinessTools.Quantity := 1 |} ];
     BusinessTools.TotalAmount := 39900;
     BusinessTools.ShipAddress := "上海市浦东新区某某路456号";
     BusinessTools.TrackingInfo := "顺丰快递，单号SF987654321";
     BusinessTools.EstDelivery := now - 48 * Hour |}.

Definition refund_of_delivered_order (requestTime : Time) (rnd : Z) (reason : string)
  : BusinessTools.RefundRequest :=
  {| BusinessTools.RefundOrderID := "ORD789012"; BusinessTools.Reason := reason;
     BusinessTools.Amount := 39900; BusinessTools.RequestTime := requestTime;
     BusinessTools.RefundStatus := "处理中";
     BusinessTools.RequestID := "REF" ++ pretty rnd;
     BusinessTools.ProcessTime := zero_Time; BusinessTools.Response := "" |}.

(** Every byte of [s] is of the class [p]. *)
Fixpoint all_chars (p : ascii -> bool) (s : string) : bool :=
  match s with
  | EmptyString => true
  | String c s' => p c && all_chars p s'
  end.

(** [s] begins with a byte of the class [p]. *)
Definition starts_with (p : ascii -> bool) (s : string) : bool :=
  match s with
  | EmptyString => false
  | String c _ => p c
  end.

(** A token of the shape of [ORD\w+]: the letters [ORD] and then one or
    more word characters. *)
Definition ORD_token (tok : string) : Prop :=
  exists w, tok = "ORD" ++ w /\ w <> "" /\ all_chars GoStrings.is_word w = true.

Definition has_ORD_token (text : string) : Prop :=
  exists pre tok post, text = pre ++ tok ++ post /\ ORD_token tok.

(** [tok] is the [ORD] token of [text] that starts first and is not
    followed by a word character. *)
Definition leftmost_ORD_token (text tok : string) : Prop :=
  exists pre post,
    text = pre ++ tok ++ post /\ ORD_token tok /\
    starts_with GoStrings.is_word post = false /\
    forall pre' tok' post',
      text = pre' ++ tok' ++ post' -> ORD_token tok' ->
      (String.length pre <= String.length pre')%nat.

(** A token of the shape of [[A-Za-z]*\d{6,}]: letters of either case,
    possibly none, and then six or more digits. *)
Definition digits6_token (tok : string) : Prop :=
  exists l d,
    tok = l ++ d /\ all_chars GoStrings.is_letter l = true /\
    all_chars GoStrings.is_digit d = true /\ (6 <= String.length d)%nat.

Definition has_digits6_token (text : string) : Prop :=
  exists pre tok post, text = pre ++ tok ++ post /\ digits6_token tok.

(** The token as the specification words it: a run of upper-case letters
    immediately followed by six or more digits. *)
Definition spec_order_id_token (tok : string) : Prop :=
  exists l d,
    tok = l ++ d /\ l <> "" /\ all_chars GoStrings.is_upper l = true /\
    all_chars GoStrings.is_digit d = true /\ (6 <= String.length d)%nat.

Definition has_spec_order_id_token (text : string) : Prop :=
  exists pre tok post, text = pre ++ tok ++ post /\ spec_order_id_token tok.

(** The order-query step as the specification words it, for a step
    function [exec]: without a token the current step is unchanged, with
    one the step is [greeting] and the context holds an order id. *)
Definition order_query_as_specified
    (exec : Conversation.ConversationState -> string
            -> Result string * Conversation.ConversationState) : Prop :=
  forall state input,
    (~ has_spec_order_id_token input ->
     Conversation.CurrentStep (exec state input).2 = Conversation.CurrentStep state) /\
    (has_spec_order_id_token input ->
     Conversation.CurrentStep (exec state input).2 = "greeting" /\
     exists id, Conversation.Context (exec state input).2 !! "order_id" = Some (VString id)).

(** A session at the step [order_query] and the world that holds it. *)
Definition order_query_session : Conversation.ConversationState :=
  Conversation.set_CurrentStep "order_query" lost_session.

Definition order_query_world : Conversation.World :=
  {| Conversation.states := <["s1" := order_query_session]> ∅;
     Conversation.refunds := ∅; Conversation.tick := 0 |}.

(** A world with no session and no refund request. *)
Definition empty_world : Conversation.World :=
  {| Conversation.states := ∅; Conversation.refunds := ∅; Conversation.tick := 0 |}.

(** A plugin file with two tool methods and one method of another shape,
    and a manager in which it is loaded under the name [calc]. *)
Definition calc_methods : list (Plugin.Method string) :=
  [ {| Plugin.MethodName := "Add"; Plugin.MethodValue := "calc.so:Add";
       Plugin.ReturnsToolFunc := true |};
    {| Plugin.MethodName := "Mul"; Plugin.MethodValue := "calc.so:Mul";
       Plugin.ReturnsToolFunc := true |};
    {| Plugin.MethodName := "Version"; Plugin.MethodValue := "calc.so:Version";
       Plugin.ReturnsToolFunc := false |} ].

Definition calc_files (path : string) : Plugin.Artifact string :=
  if String.eqb path "plugins/calc.so" then Plugin.Instance calc_methods
  else Plugin.OpenFails "no such file".

Definition empty_manager : Plugin.PluginManager string :=
  {| Plugin.plugins := ∅; Plugin.pluginFunctions := ∅; Plugin.mu := false |}.

Definition calc_loaded : Plugin.PluginManager string :=
  match Plugin.LoadPlugin calc_files empty_manager "calc" "plugins/calc.so" with
  | Plugin.Returned _ pm => pm
  | Plugin.Blocked => empty_manager
  end.

(** The model client never reports a failure. *)
Definition never_fails
    (Chat : nat -> list Graph.ChatMessage -> list Graph.ToolDefinition
            -> Result Graph.ChatResponse) : Prop :=
  forall n messages tools, exists response, Chat n messages tools = Ok response.

(** The model client asks for at least one tool on every call. *)
Definition always_calls_tools
    (Chat : nat -> list Graph.ChatMessage -> list Graph.ToolDefinition
            -> Result Graph.ChatResponse) : Prop :=
  forall n messages tools,
    exists response,
      Chat n messages tools = Ok response /\ Graph.ChatToolCalls response <> [].

(** The answer of the model client to its [k]-th call carries no tool
    call. *)
Definition answers_plainly_at
    (Chat : nat -> list Graph.ChatMessage -> list Graph.ToolDefinition
            -> Result Graph.ChatResponse) (k : nat) : Prop :=
  forall messages tools response,
    Chat k messages tools = Ok response -> Graph.ChatToolCalls response = [].

(** [ProcessMessage] returns: some number of passes through the loop is
    enough for it to yield a result. *)
Definition turn_returns
    (Chat : nat -> list Graph.ChatMessage -> list Graph.ToolDefinition
            -> Result Graph.ChatResponse)
    (range_tools : nat -> gmap string Tools.ToolFunction -> list Tools.ToolFunction)
    (json_Marshal : option (gmap string Value) -> string)
    (w : Graph.Workflow) (userMessage : string) : Prop :=
  exists fuel outcome,
    Graph.ProcessMessage Chat range_tools json_Marshal fuel w userMessage = Some outcome.



(** Model clients and a workflow for examples: one that asks for the tool
    [lookup] on every call, one that asks for the unregistered tool [nope]
    once and then answers, one that answers with an empty text. *)
Definition call_of (name : string) : Graph.LLMToolCall :=
  {| Graph.CallID := "call_1";
     Graph.Function := {| Graph.FunctionName := name; Graph.Arguments := ∅ |} |}.

Definition greedy_model (n : nat) (messages : list Graph.ChatMessage)
    (tools : list Graph.ToolDefinition) : Result Graph.ChatResponse :=
  Ok {| Graph.ChatContent := "calling"; Graph.ChatToolCalls := [call_of "lookup"] |}.

Definition one_bad_call_model (n : nat) (messages : list Graph.ChatMessage)
    (tools : list Graph.ToolDefinition) : Result Graph.ChatResponse :=
  match n with
  | O => Ok {| Graph.ChatContent := "let me check";
               Graph.ChatToolCalls := [call_of "nope"] |}
  | _ => Ok {| Graph.ChatContent := "done"; Graph.ChatToolCalls := [] |}
  end.


Definition sorted_range (k : nat) (tools : gmap string Tools.ToolFunction)
  : list Tools.ToolFunction :=
  (map_to_list tools).*2.

Definition plain_json (m : option (gmap string Value)) : string := "{}".

Definition sample_workflow : Graph.Workflow :=
  Graph.NewWorkflow
    {| Tools.registry :=
         (Tools.RegisterTool Tools.NewToolRegistry (Some (sample_tool "lookup"))).2 |}.




End Statements.

(** * Proofs *)

(** ** The tool registry *)

Section RegistryProofs.

Import Tools Statements.

Lemma register_fresh (r : ToolRegistry) (t : ToolFunction) :
  GetName t <> "" -> tools r !! GetName t = None ->
  RegisterTool r (Some t) = (None, {| tools := <[GetName t := t]> (tools r) |}).
Proof.
  intros Hne Hfree. unfold RegisterTool.
  destruct (String.eqb_spec (GetName t) "") as [E|_]; [contradiction|].
  now rewrite Hfree.
Qed.

Lemma register_taken (r : ToolRegistry) (t t0 : ToolFunction) :
  GetName t <> "" -> tools r !! GetName t = Some t0 ->
  RegisterTool r (Some t) = (Some (duplicate_error (GetName t)), r).
Proof.
  intros Hne Htaken. unfold RegisterTool.
  destruct (String.eqb_spec (GetName t) "") as [E|_]; [contradiction|].
  now rewrite Htaken.
Qed.

Lemma registered_after_register (r : ToolRegistry) (t : ToolFunction) :
  GetName t <> "" ->
  is_Some (tools (RegisterTool r (Some t)).2 !! GetName t).
Proof.
  intros Hne. destruct (tools r !! GetName t) as [t0|] eqn:E.
  - rewrite (register_taken r t t0 Hne E). simpl. rewrite E. eauto.
  - rewrite (register_fresh r t Hne E). simpl. rewrite lookup_insert_eq. eauto.
Qed.

(** C5 (amended).  For every registry and every non-empty tool name [n]:
    registering a tool named [n] and then another tool named [n] fails
    the second time with the duplicate-name error and leaves the
    registry unchanged, the first tool staying in place when [n] was free
    before; registering [n], unregistering [n] and registering [n] again
    succeeds. *)
Theorem register_twice_then_reregister :
  forall (r : ToolRegistry) (n : string) (t1 t2 : ToolFunction),
    n <> "" -> GetName t1 = n -> GetName t2 = n ->
    second_register_is_duplicate r n t1 t2 /\
    (GetTool r n = None -> GetTool (RegisterTool r (Some t1)).2 n = Some t1) /\
    reregister_after_unregister_succeeds r n t1 t2.
Proof.
  intros r n t1 t2 Hne H1 H2. subst n.
  pose proof (registered_after_register r t1 Hne) as [t0 Ht0].
  unfold second_register_is_duplicate, reregister_after_unregister_succeeds, GetTool.
  cbv zeta. rewrite <- H2 in *. repeat split.
  - rewrite H2 in *. eauto.
  - rewrite H2 in *. rewrite <- H2 at 1. apply register_taken with (t0 := t0).
    + now rewrite H2.
    + now rewrite H2.
  - intros Hfree. rewrite H2 in *. rewrite (register_fresh r t1 Hne Hfree).
    simpl. apply lookup_insert_eq.
  - rewrite H2 in *.
    set (r1 := (RegisterTool r (Some t1)).2) in *.
    exists {| tools := delete (GetName t1) (tools r1) |}.
    exists {| tools := <[GetName t2 := t2]> (delete (GetName t1) (tools r1)) |}.
    repeat split.
    + unfold UnregisterTool. now rewrite Ht0.
    + apply register_fresh; [congruence|]. simpl. rewrite H2. apply lookup_delete_eq.
    + simpl. rewrite <- H2. apply lookup_insert_eq.
Qed.

Lemma register_twice_then_reregister_witness :
  second_register_is_duplicate NewToolRegistry "query_order"
    (sample_tool "query_order") (sample_tool "query_order") /\
  reregister_after_unregister_succeeds NewToolRegistry "query_order"
    (sample_tool "query_order") (sample_tool "query_order").
Proof.
  destruct (register_twice_then_reregister NewToolRegistry "query_order"
              (sample_tool "query_order") (sample_tool "query_order"))
    as (Ha & _ & Hb); [discriminate | reflexivity | reflexivity |].
  split; [exact Ha | exact Hb].
Defined.

(** C5, the case the claim leaves out: with the empty name the second
    registration fails, but with the empty-name error, not with the
    duplicate-name error, and registering again after unregistering fails
    too. *)
Lemma register_empty_name_counterexample :
  ~ second_register_is_duplicate NewToolRegistry "" (sample_tool "") (sample_tool "") /\
  ~ reregister_after_unregister_succeeds NewToolRegistry ""
      (sample_tool "") (sample_tool "").
Proof.
  split.
  - intros [[t Ht] _]. vm_compute in Ht. discriminate.
  - intros (r2 & r3 & Hu & _). vm_compute in Hu. discriminate.
Qed.

End RegistryProofs.

(** ** The session store *)

Section SessionStoreProofs.

Import Conversation Statements.

Variable clock : nat -> Time.

Lemma GetState_lookup (sessionID : string) (w : World) :
  GetState sessionID w = (Ok (states w !! sessionID), w).
Proof. reflexivity. Qed.

Lemma GetOrCreateState_absent (w : World) (sessionID userID : string) :
  states w !! sessionID = None ->
  GetOrCreateState clock sessionID userID w
  = (Ok (fresh_session sessionID userID (clock (tick w))),
     set_states (<[sessionID := fresh_session sessionID userID (clock (tick w))]> (states w))
       (advance 1 w)).
Proof.
  intros Habsent. unfold GetOrCreateState, bind.
  rewrite GetState_lookup, Habsent. reflexivity.
Qed.

Lemma GetOrCreateState_present (w : World) (sessionID userID : string)
    (state : ConversationState) :
  states w !! sessionID = Some state ->
  GetOrCreateState clock sessionID userID w = (Ok state, w).
Proof.
  intros Hpresent. unfold GetOrCreateState, bind.
  rewrite GetState_lookup, Hpresent. reflexivity.
Qed.

(** C7.  For a session id that is not in the table, [GetOrCreateState]
    stores and returns a session whose step is [greeting], whose context
    and history are empty and whose two timestamps are the clock reading
    it makes; for a session id that is in the table it returns the stored
    session and changes nothing. *)
Theorem getOrCreate_fresh_or_existing :
  forall (w : World) (sessionID userID : string),
    (states w !! sessionID = None ->
     let state := fresh_session sessionID userID (clock (tick w)) in
     GetOrCreateState clock sessionID userID w
     = (Ok state, set_states (<[sessionID := state]> (states w)) (advance 1 w))) /\
    (forall state, states w !! sessionID = Some state ->
     GetOrCreateState clock sessionID userID w = (Ok state, w)).
Proof.
  intros w sessionID userID. split.
  - intros Habsent. now apply GetOrCreateState_absent.
  - intros state Hpresent. now apply GetOrCreateState_present.
Qed.

End SessionStoreProofs.

Lemma getOrCreate_fresh_or_existing_witness :
  let clock := fun k : nat => 1700000000 + Z.of_nat k in
  let w0 := {| Conversation.states := ∅; Conversation.refunds := ∅;
               Conversation.tick := 0 |} in
  let s1 := Statements.fresh_session "s1" "u1" 1700000000 in
  let w1 := Conversation.set_states (<["s1" := s1]> ∅) (Conversation.advance 1 w0) in
  Conversation.GetOrCreateState clock "s1" "u1" w0 = (Ok s1, w1) /\
  Conversation.GetOrCreateState clock "s1" "u2" w1 = (Ok s1, w1).
Proof.
  intros clock w0 s1 w1. split.
  - apply (getOrCreate_fresh_or_existing clock w0 "s1" "u1"). reflexivity.
  - apply (getOrCreate_fresh_or_existing clock w1 "s1" "u2").
    apply lookup_insert_eq.
Defined.

(** ** The plugin manager *)

Section PluginProofs.

Import Plugin.

Context {Func : Type}.
Variable fs : string -> Artifact Func.

Lemma LoadPlugin_held (pm : PluginManager Func) (name path : string) :
  mu pm = true -> LoadPlugin fs pm name path = Blocked.
Proof. intros Hheld. unfold LoadPlugin, with_lock. now rewrite Hheld. Qed.

(** C4.  [ReloadPlugin] of a loaded plugin never returns: it takes the
    lock and then calls [LoadPlugin], which waits for the same lock.  And
    the state it has prepared for that call still lists the plugin, so the
    body of [LoadPlugin] would refuse it as already loaded, with the old
    function references already deleted. *)
Theorem reload_of_loaded_plugin :
  forall (pm : PluginManager Func) (m : string) (info : PluginInfo Func),
    mu pm = false ->
    plugins pm !! m = Some info ->
    ReloadPlugin fs pm m = Blocked /\
    let pm1 := ReloadPlugin_before_load (set_mu true pm) m info in
    plugins pm1 !! m = Some info /\
    pluginFunctions pm1 = delete_functions m (Tools info) (pluginFunctions pm) /\
    LoadPlugin_locked fs m (Path info) pm1 = (Some ("插件 " ++ m ++ " 已加载"), pm1).
Proof.
  intros pm m info Hfree Hloaded. split.
  - unfold ReloadPlugin, with_lock. rewrite Hfree.
    change (plugins (set_mu true pm)) with (plugins pm). rewrite Hloaded.
    now rewrite LoadPlugin_held.
  - cbv zeta. repeat split.
    + exact Hloaded.
    + unfold LoadPlugin_locked. simpl. now rewrite Hloaded.
Qed.

(** What the claim asks of a reload, done by the two calls it names:
    [UnloadPlugin] and then [LoadPlugin] of a file that opens put the
    plugin back with the tools of the new file. *)
Lemma unload_then_load (pm : PluginManager Func) (m path : string)
    (info : PluginInfo Func) (methods : list (Method Func)) :
  mu pm = false ->
  plugins pm !! m = Some info ->
  fs path = Instance methods ->
  exists pm1 pm2,
    UnloadPlugin pm m = Returned None pm1 /\
    plugins pm1 !! m = None /\
    LoadPlugin fs pm1 m path = Returned None pm2 /\
    plugins pm2 !! m
    = Some {| PluginName := m; Path := path; Tools := extractTools methods |}.
Proof.
  intros Hfree Hloaded Hopen.
  eexists _, _. split; [|split; [|split]].
  - unfold UnloadPlugin, with_lock. rewrite Hfree. simpl. rewrite Hloaded. reflexivity.
  - simpl. apply lookup_delete_eq.
  - unfold LoadPlugin, with_lock, LoadPlugin_locked. simpl.
    rewrite lookup_delete_eq, Hopen. reflexivity.
  - simpl. apply lookup_insert_eq.
Qed.

(** If the load half fails, unload-then-load leaves the plugin unloaded. *)
Lemma unload_then_failed_load (pm : PluginManager Func) (m path : string)
    (info : PluginInfo Func) (e : error) :
  mu pm = false ->
  plugins pm !! m = Some info ->
  fs path = OpenFails e ->
  exists pm1,
    UnloadPlugin pm m = Returned None pm1 /\
    LoadPlugin fs pm1 m path = Returned (Some ("打开插件失败: " ++ e)) pm1 /\
    plugins pm1 !! m = None.
Proof.
  intros Hfree Hloaded Hopen.
  eexists. split; [|split].
  - unfold UnloadPlugin, with_lock. rewrite Hfree. simpl. rewrite Hloaded. reflexivity.
  - unfold LoadPlugin, with_lock, LoadPlugin_locked. simpl.
    rewrite lookup_delete_eq, Hopen. reflexivity.
  - simpl. apply lookup_delete_eq.
Qed.

End PluginProofs.

Lemma reload_of_loaded_plugin_witness :
  Plugin.ReloadPlugin Statements.calc_files Statements.calc_loaded "calc" = Plugin.Blocked.
Proof.
  refine (proj1 (reload_of_loaded_plugin Statements.calc_files Statements.calc_loaded "calc"
                   {| Plugin.PluginName := "calc"; Plugin.Path := "plugins/calc.so";
                      Plugin.Tools := Plugin.extractTools Statements.calc_methods |} _ _)).
  - reflexivity.
  - vm_compute. reflexivity.
Defined.

(** ** The tool-calling loop *)

Section WorkflowProofs.

Import Tools Graph Statements.

Variable Chat : nat -> list ChatMessage -> list ToolDefinition -> Result ChatResponse.
Variable range_tools : nat -> gmap string ToolFunction -> list ToolFunction.
Variable json_Marshal : option (gmap string Value) -> string.

Abbreviation callModel := (Graph.callModel Chat range_tools).
Abbreviation iteration := (Graph.iteration Chat range_tools).
Abbreviation loop := (Graph.loop Chat range_tools).
Abbreviation ProcessMessage := (Graph.ProcessMessage Chat range_tools).
Abbreviation build_messages := (Graph.build_messages range_tools json_Marshal).
Abbreviation build_tool_definitions := (Graph.build_tool_definitions range_tools).

(** The tool calls of a pass touch neither the tool manager nor the
    messages; they append one result per call. *)
Lemma run_tool_calls_state (tcs : list ToolCall) (w : Workflow) :
  toolManager (foldl run_tool_call w tcs) = toolManager w /\
  Messages (state (foldl run_tool_call w tcs)) = Messages (state w) /\
  IsComplete (state (foldl run_tool_call w tcs)) = IsComplete (state w) /\
  ToolResults (state (foldl run_tool_call w tcs))
  = (ToolResults (state w) ++ map (tool_result_of w) tcs)%list.
Proof.
  revert w. induction tcs as [|tc tcs IH]; intros w; simpl.
  - now rewrite app_nil_r.
  - destruct (IH (run_tool_call w tc)) as (Htm & Hmsg & Hc & Hres).
    rewrite Htm, Hmsg, Hc, Hres. simpl. repeat split.
    now rewrite <- app_assoc.
Qed.

(** A pass whose model answer carries no tool call completes the turn. *)
Lemma iteration_plain (n : nat) (w : Workflow) (response : ChatResponse) :
  Chat n (build_messages (2 * n) w) (build_tool_definitions (2 * n + 1) w) = Ok response ->
  ChatToolCalls response = [] ->
  exists w',
    iteration json_Marshal n w = (Ok tt, w') /\
    IsComplete (state w') = true /\
    last (Messages (state w'))
    = Some {| Role := "assistant"; Content := ChatContent response |}.
Proof.
  intros Hchat Hplain. unfold Graph.iteration, Graph.callModel.
  rewrite Hchat. simpl. rewrite Hplain. simpl.
  eexists. split; [reflexivity|]. split; [reflexivity|]. simpl. apply last_snoc.
Qed.

(** A pass whose model answer carries tool calls leaves the turn open. *)
Lemma iteration_tools (n : nat) (w : Workflow) (response : ChatResponse) :
  Chat n (build_messages (2 * n) w) (build_tool_definitions (2 * n + 1) w) = Ok response ->
  ChatToolCalls response <> [] ->
  exists w',
    iteration json_Marshal n w = (Ok tt, w') /\
    toolManager w' = toolManager w /\
    IsComplete (state w') = IsComplete (state w) /\
    last (Messages (state w'))
    = Some {| Role := "assistant"; Content := ChatContent response |} /\
    ToolResults (state w')
    = (ToolResults (state w)
       ++ map (fun tc => tool_result_of w (convert_tool_call tc)) (ChatToolCalls response))%list.
Proof.
  intros Hchat Htools. unfold Graph.iteration, Graph.callModel.
  rewrite Hchat. cbn [ResponseToolCalls ResponseContent].
  destruct (ChatToolCalls response) as [|tc tcs] eqn:E; [contradiction|].
  cbn [map].
  match goal with
  | |- context [foldl run_tool_call ?w0 ?l] =>
      destruct (run_tool_calls_state l w0) as (Htm & Hmsg & Hc & Hres)
  end.
  eexists. split; [reflexivity|].
  rewrite Htm, Hmsg, Hc, Hres. simpl. repeat split.
  - apply last_snoc.
  - rewrite map_map. reflexivity.
Qed.


Lemma loop_complete (fuel n : nat) (w : Workflow) :
  IsComplete (state w) = true -> loop json_Marshal fuel n w = Some (Ok tt, w).
Proof. intros Hc. destruct fuel; simpl; now rewrite Hc. Qed.

Lemma loop_step (fuel n : nat) (w w' : Workflow) :
  IsComplete (state w) = false ->
  iteration json_Marshal n w = (Ok tt, w') ->
  loop json_Marshal (S fuel) n w = loop json_Marshal fuel (S n) w'.
Proof. intros Hc Hit. simpl. now rewrite Hc, Hit. Qed.

(** More passes do not change a result already reached. *)
Lemma loop_fuel_mono (fuel n : nat) (w : Workflow) (r : Result unit * Workflow) :
  loop json_Marshal fuel n w = Some r ->
  forall extra, loop json_Marshal (fuel + extra) n w = Some r.
Proof.
  revert n w. induction fuel as [|fuel IH]; intros n w Hr extra.
  - simpl in Hr. destruct (IsComplete (state w)) eqn:Hc; [|discriminate].
    rewrite loop_complete; assumption.
  - simpl in *. destruct (IsComplete (state w)); [assumption|].
    destruct (iteration json_Marshal n w) as [[[]|e|p] w1]; try assumption.
    now apply IH.
Qed.

(** With a model that asks for a tool on every call the loop is still
    running after any number of passes. *)
Lemma loop_diverges :
  always_calls_tools Chat ->
  forall fuel n w, IsComplete (state w) = false -> loop json_Marshal fuel n w = None.
Proof.
  intros Hgreedy. induction fuel as [|fuel IH]; intros n w Hc.
  - simpl. now rewrite Hc.
  - destruct (Hgreedy n (build_messages (2 * n) w) (build_tool_definitions (2 * n + 1) w))
      as (response & Hchat & Htools).
    destruct (iteration_tools n w response Hchat Htools) as (w' & Hit & _ & Hc' & _).
    rewrite (loop_step fuel n w w' Hc Hit). apply IH. congruence.
Qed.

(** With a model that never fails and whose [k]-th answer carries no tool
    call, the loop started at call [n <= k] ends within [k - n + 1] passes,
    complete, the last message being an assistant message. *)
Lemma loop_terminates (k : nat) :
  never_fails Chat -> answers_plainly_at Chat k ->
  forall d n w,
    (n + d = k)%nat -> IsComplete (state w) = false ->
    exists w' answer,
      loop json_Marshal (S d) n w = Some (Ok tt, w') /\
      IsComplete (state w') = true /\
      last (Messages (state w')) = Some {| Role := "assistant"; Content := answer |} /\
      ToolResults (state w) `prefix_of` ToolResults (state w').
Proof.
  intros Hnf Hplain. induction d as [|d IH]; intros n w Hk Hc.
  - destruct (Hnf n (build_messages (2 * n) w) (build_tool_definitions (2 * n + 1) w))
      as (response & Hchat).
    assert (n = k) by lia. subst n.
    destruct (iteration_plain k w response Hchat (Hplain _ _ _ Hchat))
      as (w' & Hit & Hc' & Hlast).
    exists w', (ChatContent response).
    rewrite (loop_step 0 k w w' Hc Hit), (loop_complete 0 (S k) w' Hc').
    repeat split; try assumption.
    unfold Graph.iteration, Graph.callModel in Hit. rewrite Hchat in Hit.
    cbn [ResponseToolCalls ResponseContent] in Hit.
    rewrite (Hplain _ _ _ Hchat) in Hit. simpl in Hit.
    injection Hit as <-. reflexivity.
  - destruct (Hnf n (build_messages (2 * n) w) (build_tool_definitions (2 * n + 1) w))
      as (response & Hchat).
    destruct (ChatToolCalls response) as [|tc tcs] eqn:Htc.
    + destruct (iteration_plain n w response Hchat Htc) as (w' & Hit & Hc' & Hlast).
      exists w', (ChatContent response).
      rewrite (loop_step (S d) n w w' Hc Hit), (loop_complete (S d) (S n) w' Hc').
      repeat split; try assumption.
      unfold Graph.iteration, Graph.callModel in Hit. rewrite Hchat in Hit.
      cbn [ResponseToolCalls ResponseContent] in Hit. rewrite Htc in Hit. simpl in Hit.
      injection Hit as <-. reflexivity.
    + assert (Hne : ChatToolCalls response <> []) by (rewrite Htc; discriminate).
      destruct (iteration_tools n w response Hchat Hne)
        as (w1 & Hit & _ & Hc1 & _ & Hres).
      destruct (IH (S n) w1) as (w' & answer & Hloop & Hc' & Hlast & Hpre);
        [lia | congruence |].
      exists w', answer. rewrite (loop_step (S d) n w w1 Hc Hit).
      repeat split; try assumption.
      etransitivity; [|exact Hpre]. rewrite Hres. now apply prefix_app_r.
Qed.


Lemma reply_of_last_assistant (w : Workflow) (answer : string) :
  last (Messages (state w)) = Some {| Role := "assistant"; Content := answer |} ->
  last_assistant_reply w = Ok answer.
Proof. intros Hlast. unfold last_assistant_reply. now rewrite Hlast. Qed.

Lemma open_after_user_message (w : Workflow) (userMessage : string) :
  IsComplete
    (state (set_state (add_message {| Role := "user"; Content := userMessage |} (state w)) w))
  = IsComplete (state w).
Proof. reflexivity. Qed.

(** C1 (amended).  The loop of [ProcessMessage] has no iteration bound and
    no ToolLoopExceeded condition.  Called on an open workflow, with a model
    that asks for at least one tool on every call it never returns; with a
    model that never fails and whose [k]-th answer carries no tool call it
    returns a final answer after at most [k + 1] model calls. *)
Theorem loop_has_no_iteration_bound :
  forall (w : Workflow) (userMessage : string),
    IsComplete (state w) = false ->
    (always_calls_tools Chat ->
     ~ turn_returns Chat range_tools json_Marshal w userMessage) /\
    (forall k, never_fails Chat -> answers_plainly_at Chat k ->
       forall fuel, (k < fuel)%nat ->
         exists answer w',
           ProcessMessage json_Marshal fuel w userMessage = Some (Ok answer, w')).
Proof.
  intros w userMessage Hopen. split.
  - intros Hgreedy (fuel & outcome & Hret). unfold Graph.ProcessMessage in Hret.
    rewrite (loop_diverges Hgreedy) in Hret; [discriminate|]. exact Hopen.
  - intros k Hnf Hplain fuel Hfuel.
    destruct (loop_terminates k Hnf Hplain k 0%nat
                (set_state (add_message {| Role := "user"; Content := userMessage |}
                              (state w)) w))
      as (w' & answer & Hloop & _ & Hlast & _); [lia | exact Hopen |].
    exists answer, w'. unfold Graph.ProcessMessage.
    replace fuel with (S k + (fuel - S k))%nat by lia.
    rewrite (loop_fuel_mono _ _ _ _ Hloop). now rewrite (reply_of_last_assistant _ _ Hlast).
Qed.





End WorkflowProofs.

Section WorkflowExamples.

Import Tools Graph Statements.

Lemma greedy_model_always_calls_tools : always_calls_tools greedy_model.
Proof. intros n messages tools. eexists. split; [reflexivity|discriminate]. Qed.

Lemma one_bad_call_model_never_fails : never_fails one_bad_call_model.
Proof. intros [|n] messages tools; eexists; reflexivity. Qed.

Lemma one_bad_call_model_answers_at_1 : answers_plainly_at one_bad_call_model 1.
Proof. intros messages tools response H. injection H as <-. reflexivity. Qed.

(** C1, as stated, fails: with a model that asks for a tool on every call
    [ProcessMessage] does not return, whatever number of passes is taken as
    the bound. *)
Lemma greedy_model_never_returns :
  ~ turn_returns greedy_model sorted_range plain_json sample_workflow "查一下订单".
Proof.
  intros (fuel & outcome & Hret). unfold ProcessMessage in Hret.
  rewrite (loop_diverges greedy_model sorted_range plain_json
             greedy_model_always_calls_tools) in Hret; [discriminate|reflexivity].
Qed.

Lemma loop_has_no_iteration_bound_witness :
  ~ turn_returns greedy_model sorted_range plain_json sample_workflow "hello" /\
  exists answer w',
    ProcessMessage one_bad_call_model sorted_range plain_json 2 sample_workflow "hello"
    = Some (Ok answer, w').
Proof.
  split.
  - apply (loop_has_no_iteration_bound greedy_model sorted_range plain_json
             sample_workflow "hello"); [reflexivity|].
    exact greedy_model_always_calls_tools.
  - apply (loop_has_no_iteration_bound one_bad_call_model sorted_range plain_json
             sample_workflow "hello") with (k := 1%nat).
    + reflexivity.
    + exact one_bad_call_model_never_fails.
    + exact one_bad_call_model_answers_at_1.
    + lia.
Defined.




End WorkflowExamples.

(** ** The step flow *)

Section StepFlowProofs.

Import GoStrings Conversation Statements.

Lemma default_steps_table :
  steps (registry NewConversationFlow)
  = <["refund_request" := RefundRequestStep]>
      (<["order_query" := OrderQueryStep]> (<["greeting" := GreetingStep]> ∅)).
Proof. reflexivity. Qed.

Lemma default_flow_lookup (name : string) (step : ConversationStep) :
  Get (registry NewConversationFlow) name = Some step ->
  (name = "greeting" /\ step = GreetingStep) \/
  (name = "order_query" /\ step = OrderQueryStep) \/
  (name = "refund_request" /\ step = RefundRequestStep).
Proof.
  unfold Get. rewrite default_steps_table. intros H.
  apply lookup_insert_Some in H as [ [ <- <- ] | [ _ H ] ]; [tauto|].
  apply lookup_insert_Some in H as [ [ <- <- ] | [ _ H ] ]; [tauto|].
  apply lookup_insert_Some in H as [ [ <- <- ] | [ _ H ] ]; [tauto|].
  rewrite lookup_empty in H. discriminate.
Qed.

Lemma registered_default (name : string) :
  registered NewConversationFlow name <-> known_step name.
Proof.
  unfold registered, known_step. split.
  - intros [step H]. apply default_flow_lookup in H. tauto.
  - intros [ -> | [ -> | -> ] ]; eexists; reflexivity.
Qed.

(** The steps that a range over the default registry yields. *)
Lemma default_range (range : list ConversationStep) (step : ConversationStep) :
  range_of NewConversationFlow range -> In step range ->
  step = GreetingStep \/ step = OrderQueryStep \/ step = RefundRequestStep.
Proof.
  intros Hrange Hin. unfold range_of in Hrange.
  pose proof (Permutation_in _ Hrange Hin) as Hin'.
  destruct (proj1 (in_map_iff snd _ step) Hin') as ([name step'] & Heq & Hin2).
  cbn [snd] in Heq. subst step'.
  apply list_elem_of_In in Hin2. apply elem_of_map_to_list in Hin2.
  apply default_flow_lookup in Hin2. tauto.
Qed.

Lemma transition_step (range : list ConversationStep) (state : ConversationState)
    (input : string) :
  CurrentStep (transition range state input) = CurrentStep state \/
  exists step, In step range /\ CurrentStep (transition range state input) = GetName step.
Proof.
  unfold transition.
  destruct (List.find _ range) as [step|] eqn:E; [|now left].
  right. exists step. split; [|reflexivity]. now apply List.find_some in E.
Qed.

(** When no other step of the range accepts the transition, the current
    step stays. *)
Lemma transition_stays (range : list ConversationStep) (state : ConversationState)
    (input : string) :
  (forall step, In step range ->
     negb (String.eqb (GetName step) (CurrentStep state))
     && CanTransition step state input = false) ->
  transition range state input = state.
Proof.
  intros Hnone. unfold transition.
  destruct (List.find _ range) as [step|] eqn:E; [|reflexivity].
  apply List.find_some in E as [Hin Htrue]. rewrite (Hnone step Hin) in Htrue. discriminate.
Qed.

(** Each default step leaves a known step current. *)
Lemma default_step_keeps_known (step : ConversationStep) (state state' : ConversationState)
    (input : string) (r : Result string) :
  step = GreetingStep \/ step = OrderQueryStep \/ step = RefundRequestStep ->
  known_step (CurrentStep state) ->
  Execute step state input = (r, state') ->
  known_step (CurrentStep state').
Proof.
  unfold known_step. intros [ -> | [ -> | -> ] ] Hknown; simpl.
  - destruct (Contains input "查订单" || Contains input "订单");
      [intros [= _ <-]; simpl; tauto|].
    destruct (Contains input "退款" || Contains input "退单");
      intros [= _ <-]; simpl; tauto.
  - destruct (String.eqb (extractOrderID input) ""); intros [= _ <-]; simpl; tauto.
  - destruct (String.eqb (extractOrderID input) ""); [intros [= _ <-]; simpl; tauto|].
    destruct (String.eqb (extractRefundReason input) ""); intros [= _ <-]; simpl; tauto.
Qed.

(** Every order of the three default steps is a possible range. *)
Lemma range_of_default (range : list ConversationStep) :
  Permutation range default_steps -> range_of NewConversationFlow range.
Proof.
  intros Hperm. unfold range_of. rewrite default_steps_table.
  transitivity default_steps; [exact Hperm|].
  assert (Hlist :
    Permutation
      (map_to_list (<["refund_request" := RefundRequestStep]>
                      (<["order_query" := OrderQueryStep]>
                         (<["greeting" := GreetingStep]> (∅ : gmap string ConversationStep)))))
      [("refund_request", RefundRequestStep); ("order_query", OrderQueryStep);
       ("greeting", GreetingStep)]).
  { rewrite map_to_list_insert by (vm_compute; reflexivity).
    rewrite map_to_list_insert by (vm_compute; reflexivity).
    rewrite map_to_list_insert by (vm_compute; reflexivity).
    now rewrite map_to_list_empty. }
  apply (Permutation_map snd) in Hlist. cbn [map snd] in Hlist.
  symmetry. etransitivity; [exact Hlist|].
  exact (Permutation_rev [RefundRequestStep; OrderQueryStep; GreetingStep]).
Qed.

(** C10.  [ProcessInput] on the default flow keeps the current step among
    the registered steps: if the current step is registered and the call
    returns without error, the current step it leaves is registered. *)
Theorem ProcessInput_keeps_step_registered :
  forall (range : list ConversationStep) (state state' : ConversationState)
         (input response : string),
    range_of NewConversationFlow range ->
    registered NewConversationFlow (CurrentStep state) ->
    ProcessInput range NewConversationFlow state input = (Ok response, state') ->
    registered NewConversationFlow (CurrentStep state').
Proof.
  intros range state state' input response Hrange Hreg Hrun.
  unfold ProcessInput in Hrun.
  destruct (Get (registry NewConversationFlow) (CurrentStep state)) as [step|] eqn:Hget;
    [|discriminate].
  destruct (Execute step state input) as [[r|e|p] state1] eqn:Hexec; try discriminate.
  injection Hrun as _ <-.
  assert (Hknown1 : known_step (CurrentStep state1)).
  { eapply default_step_keeps_known; [| |exact Hexec].
    - apply default_flow_lookup in Hget. tauto.
    - now apply registered_default. }
  apply registered_default.
  destruct (transition_step range state1 input) as [->|(step' & Hin & ->)];
    [assumption|].
  destruct (default_range range step' Hrange Hin) as [ -> | [ -> | -> ] ];
    unfold known_step; simpl; tauto.
Qed.

End StepFlowProofs.

Lemma ProcessInput_keeps_step_registered_witness :
  Statements.registered Conversation.NewConversationFlow
    (Conversation.CurrentStep
       (Conversation.ProcessInput
          [Conversation.RefundRequestStep; Conversation.OrderQueryStep;
           Conversation.GreetingStep]
          Conversation.NewConversationFlow
          (Statements.fresh_session "s1" "u1" 0) "我要退款").2).
Proof.
  apply (ProcessInput_keeps_step_registered
           [Conversation.RefundRequestStep; Conversation.OrderQueryStep;
            Conversation.GreetingStep]
           (Statements.fresh_session "s1" "u1" 0) _ "我要退款"
           "请提供您的订单号和退款原因，我将为您处理退款申请。").
  - apply range_of_default. symmetry.
    exact (Permutation_rev Conversation.default_steps).
  - eexists. reflexivity.
  - vm_compute. reflexivity.
Defined.

(** ** Operations of the session store, seen from one session *)

Section SessionOperations.

Import GoStrings Conversation Statements.

Variable clock : nat -> Time.

Lemma bind_ok {A B} (m : M A) (k : A -> M B) (w w' : World) (a : A) :
  m w = (Ok a, w') -> bind m k w = k a w'.
Proof. intros H. unfold bind. now rewrite H. Qed.

Lemma bind_err {A B} (m : M A) (k : A -> M B) (w w' : World) (e : error) :
  m w = (Err e, w') -> bind m k w = (Err e, w').
Proof. intros H. unfold bind. now rewrite H. Qed.

Lemma wrap_ok {A} (prefix : string) (m : M A) (w w' : World) (a : A) :
  m w = (Ok a, w') -> wrap prefix m w = (Ok a, w').
Proof. intros H. unfold wrap. now rewrite H. Qed.

Lemma wrap_err {A} (prefix : string) (m : M A) (w w' : World) (e : error) :
  m w = (Err e, w') -> wrap prefix m w = (Err (prefix ++ e), w').
Proof. intros H. unfold wrap. now rewrite H. Qed.

Lemma UpdateState_has (sessionID step : string) (ctx : gmap string Value)
    (updateFunc : ConversationState -> M ConversationState)
    (step' : string) (ctx' : gmap string Value) (w : World) :
  session_has w sessionID step ctx ->
  (forall state w0,
     CurrentStep state = step -> Context state = ctx ->
     exists state1 w1,
       updateFunc state w0 = (Ok state1, w1) /\
       states w1 = states w0 /\ refunds w1 = refunds w0 /\
       CurrentStep state1 = step' /\ Context state1 = ctx') ->
  exists w',
    UpdateState clock sessionID updateFunc w = (Ok tt, w') /\
    session_has w' sessionID step' ctx' /\
    refunds w' = refunds w.
Proof.
  intros (state & Hlookup & Hstep & Hctx) Hupd.
  destruct (Hupd state w Hstep Hctx) as (state1 & w1 & Hrun & Hst & Hrf & Hstep1 & Hctx1).
  unfold UpdateState, bind, GetState. rewrite Hlookup, Hrun. simpl.
  eexists. split; [reflexivity|]. split; [|exact Hrf].
  eexists. simpl. rewrite lookup_insert_eq. split; [reflexivity|]. now split.
Qed.

Lemma AddMessage_has (sessionID role content : string)
    (metadata : option (gmap string Value)) (step : string) (ctx : gmap string Value)
    (w : World) :
  session_has w sessionID step ctx ->
  exists w',
    AddMessage clock sessionID role content metadata w = (Ok tt, w') /\
    session_has w' sessionID step ctx /\
    refunds w' = refunds w.
Proof.
  intros Hhas. unfold AddMessage. eapply UpdateState_has; [exact Hhas|].
  intros state w0 Hstep Hctx. eexists _, _. split; [reflexivity|]. now repeat split.
Qed.

Lemma SetCurrentStep_has (sessionID step' step : string) (ctx : gmap string Value)
    (w : World) :
  session_has w sessionID step ctx ->
  exists w',
    SetCurrentStep clock sessionID step' w = (Ok tt, w') /\
    session_has w' sessionID step' ctx /\
    refunds w' = refunds w.
Proof.
  intros Hhas. unfold SetCurrentStep. eapply UpdateState_has; [exact Hhas|].
  intros state w0 Hstep Hctx. eexists _, _. split; [reflexivity|]. now repeat split.
Qed.

Lemma SetContext_has (sessionID key : string) (value : Value) (step : string)
    (ctx : gmap string Value) (w : World) :
  session_has w sessionID step ctx ->
  exists w',
    SetContext clock sessionID key value w = (Ok tt, w') /\
    session_has w' sessionID step (<[key := value]> ctx) /\
    refunds w' = refunds w.
Proof.
  intros Hhas. unfold SetContext. eapply UpdateState_has; [exact Hhas|].
  intros state w0 Hstep Hctx. eexists _, _. split; [reflexivity|].
  repeat split; try assumption. simpl. now rewrite Hctx.
Qed.

Lemma GetOrCreateState_has (sessionID userID step : string) (ctx : gmap string Value)
    (w : World) :
  session_has w sessionID step ctx ->
  exists state, GetOrCreateState clock sessionID userID w = (Ok state, w).
Proof.
  intros (state & Hlookup & _). exists state.
  now apply GetOrCreateState_present.
Qed.

Lemma GetOrCreateState_fresh (sessionID userID : string) (w : World) :
  states w !! sessionID = None ->
  exists state w',
    GetOrCreateState clock sessionID userID w = (Ok state, w') /\
    session_has w' sessionID "greeting" ∅ /\
    refunds w' = refunds w.
Proof.
  intros Habsent. eexists _, _. split.
  - now apply GetOrCreateState_absent.
  - split; [|reflexivity]. eexists. simpl. rewrite lookup_insert_eq.
    split; [reflexivity|]. now split.
Qed.

End SessionOperations.

(** ** The refund scenario on the step flow *)

Section StepFlowScenario.

Import GoStrings Conversation Statements.

Variable clock : nat -> Time.
Variable range : list ConversationStep.
Hypothesis range_default : range_of NewConversationFlow range.

(** A call of [ProcessInput] on the default flow after which no step of
    the range takes over. *)
Lemma ProcessInput_default_stays (state state1 : ConversationState)
    (step : ConversationStep) (input response : string) :
  Get (registry NewConversationFlow) (CurrentStep state) = Some step ->
  Execute step state input = (Ok response, state1) ->
  negb (String.eqb "order_query" (CurrentStep state1))
  && CanTransition OrderQueryStep state1 input = false ->
  negb (String.eqb "refund_request" (CurrentStep state1))
  && CanTransition RefundRequestStep state1 input = false ->
  ProcessInput range NewConversationFlow state input = (Ok response, state1).
Proof.
  intros Hget Hexec Horder Hrefund. unfold ProcessInput. rewrite Hget, Hexec.
  rewrite transition_stays; [reflexivity|].
  intros s Hin.
  destruct (default_range range s range_default Hin) as [ -> | [ -> | -> ] ];
    [apply andb_false_r | exact Horder | exact Hrefund].
Qed.

Lemma through_pointer_has {A} (sessionID step step' : string)
    (ctx ctx' : gmap string Value)
    (f : ConversationState -> Result A * ConversationState) (r : Result A) (w : World) :
  session_has w sessionID step ctx ->
  (forall state, CurrentStep state = step -> Context state = ctx ->
     exists state', f state = (r, state') /\
                    CurrentStep state' = step' /\ Context state' = ctx') ->
  exists w',
    through_pointer sessionID f w = (r, w') /\ session_has w' sessionID step' ctx'.
Proof.
  intros (state & Hlookup & Hstep & Hctx) Hf.
  destruct (Hf state Hstep Hctx) as (state' & Hrun & Hstep' & Hctx').
  unfold through_pointer. rewrite Hlookup, Hrun.
  eexists. split; [reflexivity|]. exists state'. simpl. rewrite lookup_insert_eq. tauto.
Qed.

(** A turn of [Manager.ProcessMessage] whose call of [ProcessInput]
    answers [response]. *)
Lemma Manager_turn (sessionID userID message response step step' : string)
    (ctx ctx' : gmap string Value) (w w0 : World) (state0 : ConversationState) :
  GetOrCreateState clock sessionID userID w = (Ok state0, w0) ->
  session_has w0 sessionID step ctx ->
  (forall state, CurrentStep state = step -> Context state = ctx ->
     exists state',
       ProcessInput range NewConversationFlow state message = (Ok response, state') /\
       CurrentStep state' = step' /\ Context state' = ctx') ->
  exists w',
    Manager_ProcessMessage clock range NewConversationFlow sessionID userID message w
    = (Ok response, w') /\
    session_has w' sessionID step' ctx'.
Proof.
  intros Hget Hhas Hinput. unfold Manager_ProcessMessage.
  rewrite (bind_ok _ _ _ _ _ Hget).
  destruct (AddMessage_has clock sessionID "user" message None step ctx w0 Hhas)
    as (w1 & Hadd1 & Hhas1 & _).
  rewrite (bind_ok _ _ _ _ _ (wrap_ok _ _ _ _ _ Hadd1)).
  destruct (through_pointer_has sessionID step step' ctx ctx'
              (fun state => ProcessInput range NewConversationFlow state message)
              (Ok response) w1 Hhas1 Hinput) as (w2 & Hrun & Hhas2).
  rewrite (bind_ok _ _ _ _ _ (wrap_ok _ _ _ _ _ Hrun)).
  destruct (AddMessage_has clock sessionID "assistant" response None step' ctx' w2 Hhas2)
    as (w3 & Hadd3 & Hhas3 & _).
  rewrite (bind_ok _ _ _ _ _ (wrap_ok _ _ _ _ _ Hadd3)).
  exists w3. split; [reflexivity|exact Hhas3].
Qed.

Lemma greeting_asks_for_refund_data (state : ConversationState) :
  CurrentStep state = "greeting" ->
  exists state',
    ProcessInput range NewConversationFlow state "我要退款"
    = (Ok "请提供您的订单号和退款原因，我将为您处理退款申请。", state') /\
    CurrentStep state' = "refund_request" /\ Context state' = Context state.
Proof.
  intros Hstep. exists (set_CurrentStep "refund_request" state).
  split; [|split; reflexivity].
  apply ProcessInput_default_stays with (step := GreetingStep).
  - rewrite Hstep. reflexivity.
  - vm_compute. reflexivity.
  - vm_compute. reflexivity.
  - vm_compute. reflexivity.
Qed.

Lemma refund_step_asks_for_reason (state : ConversationState) :
  CurrentStep state = "refund_request" ->
  exists state',
    ProcessInput range NewConversationFlow state "ORD789012"
    = (Ok "请说明您的退款原因，例如：商品质量问题、不想要了、发错货等。", state') /\
    CurrentStep state' = "refund_request" /\
    Context state'
    = <["awaiting_refund_reason" := VBool true]>
        (<["order_id" := VString "ORD789012"]> (Context state)).
Proof.
  intros Hstep.
  exists (set_Context
            (<["awaiting_refund_reason" := VBool true]>
               (<["order_id" := VString "ORD789012"]> (Context state))) state).
  split; [|split].
  - apply ProcessInput_default_stays with (step := RefundRequestStep).
    + rewrite Hstep. reflexivity.
    + vm_compute. reflexivity.
    + cbn [CanTransition OrderQueryStep CurrentStep set_Context].
      rewrite Hstep. vm_compute. reflexivity.
    + cbn [CanTransition RefundRequestStep CurrentStep set_Context].
      rewrite Hstep. vm_compute. reflexivity.
  - exact Hstep.
  - reflexivity.
Qed.

(** The reason alone is not accepted: the step looks for an order id in
    the input, not in the context. *)
Lemma refund_step_rejects_reason_alone (state : ConversationState) :
  CurrentStep state = "refund_request" ->
  ProcessInput range NewConversationFlow state "质量问题" = (Ok reprompt_order_id, state).
Proof.
  intros Hstep.
  apply ProcessInput_default_stays with (step := RefundRequestStep).
  - rewrite Hstep. reflexivity.
  - vm_compute. reflexivity.
  - cbn [CanTransition OrderQueryStep]. rewrite Hstep. vm_compute. reflexivity.
  - cbn [CanTransition RefundRequestStep]. rewrite Hstep. vm_compute. reflexivity.
Qed.

(** C3, on the step flow.  For a session [s1] that is not yet in the table,
    the first turn asks for the order id and the refund reason and the
    second turn asks for the refund reason, but the third turn, given the
    reason, asks for the order id again: the session stays at
    [refund_request] with the order id and the mark that a reason is
    awaited in its context. *)
Theorem step_flow_refund_scenario :
  forall (w0 : World) (userID : string),
    states w0 !! "s1" = None ->
    exists w1 w2 w3,
      Manager_ProcessMessage clock range NewConversationFlow "s1" userID "我要退款" w0
      = (Ok "请提供您的订单号和退款原因，我将为您处理退款申请。", w1) /\
      Manager_ProcessMessage clock range NewConversationFlow "s1" userID "ORD789012" w1
      = (Ok "请说明您的退款原因，例如：商品质量问题、不想要了、发错货等。", w2) /\
      Manager_ProcessMessage clock range NewConversationFlow "s1" userID "质量问题" w2
      = (Ok reprompt_order_id, w3) /\
      session_has w3 "s1" "refund_request"
        (<["awaiting_refund_reason" := VBool true]>
           (<["order_id" := VString "ORD789012"]> ∅)).
Proof.
  intros w0 userID Hfresh.
  destruct (GetOrCreateState_fresh clock "s1" userID w0 Hfresh)
    as (state0 & w0' & Hget0 & Hhas0 & _).
  destruct (Manager_turn "s1" userID "我要退款"
              "请提供您的订单号和退款原因，我将为您处理退款申请。"
              "greeting" "refund_request" ∅ ∅
              w0 w0' state0 Hget0 Hhas0) as (w1 & Hturn1 & Hhas1).
  { intros state Hstep Hctx.
    destruct (greeting_asks_for_refund_data state Hstep) as (state' & H1 & H2 & H3).
    exists state'. rewrite H3, Hctx. tauto. }
  destruct (GetOrCreateState_has clock "s1" userID _ _ w1 Hhas1) as (state1 & Hget1).
  destruct (Manager_turn "s1" userID "ORD789012"
              "请说明您的退款原因，例如：商品质量问题、不想要了、发错货等。"
              "refund_request" "refund_request" ∅
              (<["awaiting_refund_reason" := VBool true]>
                 (<["order_id" := VString "ORD789012"]> ∅))
              w1 w1 state1 Hget1 Hhas1) as (w2 & Hturn2 & Hhas2).
  { intros state Hstep Hctx.
    destruct (refund_step_asks_for_reason state Hstep) as (state' & H1 & H2 & H3).
    exists state'. rewrite H3, Hctx. split; [exact H1|]. split; [exact H2|reflexivity]. }
  destruct (GetOrCreateState_has clock "s1" userID _ _ w2 Hhas2) as (state2 & Hget2).
  destruct (Manager_turn "s1" userID "质量问题" reprompt_order_id "refund_request"
              "refund_request"
              (<["awaiting_refund_reason" := VBool true]>
                 (<["order_id" := VString "ORD789012"]> ∅))
              (<["awaiting_refund_reason" := VBool true]>
                 (<["order_id" := VString "ORD789012"]> ∅))
              w2 w2 state2 Hget2 Hhas2) as (w3 & Hturn3 & Hhas3).
  { intros state Hstep Hctx. exists state.
    rewrite (refund_step_rejects_reason_alone state Hstep). tauto. }
  exists w1, w2, w3. tauto.
Qed.

End StepFlowScenario.

(** ** The multi-turn handler *)

Section MultiTurnProofs.

Import GoStrings BusinessTools Conversation Statements.

Variable clock : nat -> Time.
Variable rand_Intn : nat -> Z.
Variable chatModel : nat -> string -> Result string.
Variable orderTool : QueryOrder.
Variable FormatOrderInfo : Time -> OrderInfo -> string.
Variable FormatRefundInfo : RefundRequest -> string.

Abbreviation MultiTurn_turn :=
  (MultiTurn_ProcessMessage clock rand_Intn chatModel orderTool
     FormatOrderInfo FormatRefundInfo).
Abbreviation handle :=
  (handle_by_step clock rand_Intn chatModel orderTool FormatOrderInfo FormatRefundInfo).

Lemma GetState_has (sessionID step : string) (ctx : gmap string Value) (w : World) :
  session_has w sessionID step ctx ->
  exists state,
    GetState sessionID w = (Ok (Some state), w) /\
    CurrentStep state = step /\ Context state = ctx.
Proof.
  intros (state & Hlookup & Hstep & Hctx). exists state.
  unfold GetState. rewrite Hlookup. tauto.
Qed.

Lemma currentStep_or_greeting_has (sessionID step : string) (ctx : gmap string Value)
    (w : World) :
  session_has w sessionID step ctx ->
  currentStep_or_greeting sessionID w = (Ok step, w).
Proof.
  intros (state & Hlookup & Hstep & _).
  unfold currentStep_or_greeting, GetCurrentStep, bind, GetState.
  rewrite Hlookup. simpl. now rewrite Hstep.
Qed.

(** A turn of the multi-turn handler, given what the handler of the
    current step does. *)
Lemma MultiTurn_turn_with (P : Result string -> Prop)
    (sessionID message step step' : string)
    (ctx ctx' : gmap string Value) (w w0 : World) (state0 : ConversationState) :
  GetOrCreateState clock sessionID "default_user" w = (Ok state0, w0) ->
  session_has w0 sessionID step ctx ->
  (forall w1, session_has w1 sessionID step ctx ->
     exists r w2, handle step sessionID message w1 = (r, w2) /\ P r /\
                  session_has w2 sessionID step' ctx') ->
  exists r w',
    MultiTurn_turn sessionID message w = (r, w') /\ P r /\
    session_has w' sessionID step' ctx'.
Proof.
  intros Hget Hhas Hhandler. unfold MultiTurn_ProcessMessage.
  rewrite (bind_ok _ _ _ _ _ Hget).
  destruct (AddMessage_has clock sessionID "user" message None step ctx w0 Hhas)
    as (w1 & Hadd1 & Hhas1 & _).
  rewrite (bind_ok _ _ _ _ _ (wrap_ok _ _ _ _ _ Hadd1)).
  rewrite (bind_ok _ _ _ _ _ (currentStep_or_greeting_has sessionID step ctx w1 Hhas1)).
  destruct (Hhandler w1 Hhas1) as (r & w2 & Hrun & HP & Hhas2).
  exists r. destruct r as [response|e|p].
  - rewrite (bind_ok _ _ _ _ _ Hrun).
    destruct (AddMessage_has clock sessionID "assistant" response None step' ctx' w2 Hhas2)
      as (w3 & Hadd3 & Hhas3 & _).
    rewrite (bind_ok _ _ _ _ _ (wrap_ok _ _ _ _ _ Hadd3)).
    exists w3. split; [reflexivity|]. split; [exact HP|exact Hhas3].
  - rewrite (bind_err _ _ _ _ _ Hrun). now exists w2.
  - unfold bind at 1. rewrite Hrun. now exists w2.
Qed.

Lemma detectIntent_values (message : string) :
  detectIntent message = "order_query" \/
  detectIntent message = "refund_request" \/
  detectIntent message = "general".
Proof.
  unfold detectIntent.
  destruct (first_contained _ orderKeywords); [tauto|].
  destruct (first_contained _ refundKeywords); tauto.
Qed.

Lemma handle_unknown (step sessionID message : string) :
  ~ known_step step ->
  handle step sessionID message
  = handleUnknownStep clock rand_Intn chatModel orderTool FormatOrderInfo FormatRefundInfo
      sessionID message.
Proof.
  intros Hunknown. unfold handle_by_step, known_step in *.
  destruct (String.eqb_spec step "greeting"); [tauto|].
  destruct (String.eqb_spec step "order_query"); [tauto|].
  destruct (String.eqb_spec step "refund_request"); [tauto|reflexivity].
Qed.

Lemma default_flow_unknown (name : string) :
  ~ known_step name -> Get (registry NewConversationFlow) name = None.
Proof.
  intros Hunknown.
  destruct (Get (registry NewConversationFlow) name) as [step|] eqn:E; [|reflexivity].
  exfalso. apply Hunknown. apply registered_default. now exists step.
Qed.

Lemma session_has_advance (n : nat) (w : World) (sessionID step : string)
    (ctx : gmap string Value) :
  session_has w sessionID step ctx -> session_has (advance n w) sessionID step ctx.
Proof. intros H. exact H. Qed.

(** C8 (amended).  A current step that names no known step is not treated
    as [greeting].  The step flow fails with the step-not-found error and
    leaves the session as it is.  The multi-turn handler dispatches on the
    intent of the message: for the order and refund intents it does what
    the [greeting] step does, for any other message it asks the chat model
    where [greeting] answers with its fixed text, and the turn returns what
    the chat model returns, an error included, the step staying unknown. *)
Theorem unknown_step_is_not_greeting :
  (forall (range : list ConversationStep) (state : ConversationState) (input : string),
     ~ known_step (CurrentStep state) ->
     ProcessInput range NewConversationFlow state input
     = (Err ("未找到当前步骤: " ++ CurrentStep state), state)) /\
  (forall step sessionID message,
     ~ known_step step ->
     (detectIntent message <> "general" ->
      handle step sessionID message = handle "greeting" sessionID message) /\
     (detectIntent message = "general" ->
      handle step sessionID message = handleGeneralChat chatModel sessionID message /\
      handle "greeting" sessionID message = ret general_greeting)) /\
  (forall (w : World) sessionID message step ctx (r : Result string),
     session_has w sessionID step ctx ->
     ~ known_step step ->
     detectIntent message = "general" ->
     (forall k, chatModel k message = r) ->
     exists w',
       MultiTurn_turn sessionID message w = (r, w') /\
       session_has w' sessionID step ctx).
Proof.
  split; [|split].
  - intros range state input Hunknown. unfold ProcessInput.
    now rewrite (default_flow_unknown _ Hunknown).
  - intros step sessionID message Hunknown. rewrite (handle_unknown _ _ _ Hunknown).
    unfold handleUnknownStep, handle_by_step, handleGreetingStep. simpl. split.
    + intros Hintent.
      destruct (detectIntent_values message) as [ -> | [ -> | E ] ];
        [reflexivity | reflexivity | contradiction].
    + intros ->. split; reflexivity.
  - intros w sessionID message step ctx r Hhas Hunknown Hintent Hchat.
    destruct (GetOrCreateState_has clock sessionID "default_user" step ctx w Hhas)
      as (state0 & Hget).
    destruct (MultiTurn_turn_with (fun r' => r' = r) sessionID message step step ctx ctx
                w w state0 Hget Hhas) as (r' & w' & Hturn & -> & Hhas').
    { intros w1 Hhas1. rewrite (handle_unknown _ _ _ Hunknown).
      unfold handleUnknownStep. rewrite Hintent.
      change (String.eqb "general" "order_query") with false.
      change (String.eqb "general" "refund_request") with false. cbv iota.
      exists r, (advance 1 w1). unfold handleGeneralChat. rewrite Hchat.
      split; [reflexivity|]. split; [reflexivity|]. now apply session_has_advance. }
    now exists w'.
Qed.

End MultiTurnProofs.

Lemma unknown_step_is_not_greeting_witness :
  Conversation.ProcessInput Conversation.default_steps Conversation.NewConversationFlow
    Statements.lost_session "你好"
  = (Err "未找到当前步骤: checkout", Statements.lost_session).
Proof.
  apply (proj1 (unknown_step_is_not_greeting Statements.sample_clock Statements.sample_rand
                  Statements.chat_down (BusinessTools.NewQueryOrder 0)
                  Statements.sample_order_layout Statements.sample_refund_layout)).
  unfold Statements.known_step. simpl. intros [H|[H|H]]; discriminate.
Defined.

(** C8, as stated, fails: with the current step [checkout], which no step
    machine knows, the step flow returns an error, and so does the
    multi-turn handler when the chat model is down, although a session at
    [greeting] is answered in both. *)
Lemma unknown_step_counterexample :
  ~ Statements.produces_response
      (Conversation.ProcessInput Conversation.default_steps
         Conversation.NewConversationFlow Statements.lost_session "你好") /\
  ~ Statements.produces_response
      (Conversation.MultiTurn_ProcessMessage Statements.sample_clock Statements.sample_rand
         Statements.chat_down (BusinessTools.NewQueryOrder 0)
         Statements.sample_order_layout Statements.sample_refund_layout
         "s1" "你好" Statements.lost_world) /\
  Statements.produces_response
    (Conversation.ProcessInput Conversation.default_steps Conversation.NewConversationFlow
       (Conversation.set_CurrentStep "greeting" Statements.lost_session) "你好") /\
  Statements.produces_response
    (Conversation.MultiTurn_ProcessMessage Statements.sample_clock Statements.sample_rand
       Statements.chat_down (BusinessTools.NewQueryOrder 0)
       Statements.sample_order_layout Statements.sample_refund_layout
       "s1" "你好"
       (Conversation.set_states
          (<["s1" := Conversation.set_CurrentStep "greeting" Statements.lost_session]> ∅)
          Statements.lost_world)).
Proof.
  unfold Statements.produces_response. repeat split.
  - intros [response H]. vm_compute in H. discriminate.
  - intros [response H]. vm_compute in H. discriminate.
  - eexists. vm_compute. reflexivity.
  - eexists. vm_compute. reflexivity.
Qed.

(** ** The handlers of the multi-turn conversation *)

Section MultiTurnHandlers.

Import GoStrings BusinessTools Conversation Statements.

Variable clock : nat -> Time.
Variable rand_Intn : nat -> Z.
Variable chatModel : nat -> string -> Result string.
Variable orderTool : QueryOrder.
Variable FormatOrderInfo : Time -> OrderInfo -> string.
Variable FormatRefundInfo : RefundRequest -> string.

Abbreviation startRefund := (startRefundRequest clock rand_Intn orderTool FormatRefundInfo).
Abbreviation handleRefund :=
  (handleRefundRequestStep clock rand_Intn orderTool FormatRefundInfo).
Abbreviation processRefund :=
  (MultiTurn_processRefundRequest clock rand_Intn orderTool FormatRefundInfo).
Abbreviation handleOrder := (handleOrderQueryStep clock orderTool FormatOrderInfo).
Abbreviation processOrder := (MultiTurn_processOrderQuery clock orderTool FormatOrderInfo).

(** [startRefundRequest] with no order id in the context asks for one. *)
Lemma startRefundRequest_asks_order_id (sessionID step : string)
    (ctx : gmap string Value) (w : World) :
  session_has w sessionID step ctx ->
  ctx !! "order_id" = None ->
  exists w',
    startRefund sessionID w = (Ok ask_order_id_for_refund, w') /\
    session_has w' sessionID "refund_request" ctx.
Proof.
  intros Hhas Hnone. unfold startRefundRequest.
  destruct (SetCurrentStep_has clock sessionID "refund_request" step ctx w Hhas)
    as (w1 & Hset & Hhas1 & _).
  rewrite (bind_ok _ _ _ _ _ (wrap_ok _ _ _ _ _ Hset)).
  destruct (GetState_has sessionID _ _ w1 Hhas1) as (state & Hget & _ & Hctx).
  rewrite (bind_ok _ _ _ _ _ Hget). rewrite Hctx, Hnone.
  exists w1. split; [reflexivity|exact Hhas1].
Qed.

(** [handleRefundRequestStep] with no order id in the context takes the
    one of the message and asks for the reason, or asks again. *)
Lemma handleRefund_takes_order_id (sessionID message step : string)
    (ctx : gmap string Value) (w : World) :
  session_has w sessionID step ctx ->
  ctx !! "order_id" = None ->
  MultiTurn_extractOrderID message <> "" ->
  exists w',
    handleRefund sessionID message w
    = (Ok (ask_refund_reason (MultiTurn_extractOrderID message)), w') /\
    session_has w' sessionID step
      (<["order_id" := VString (MultiTurn_extractOrderID message)]> ctx).
Proof.
  intros Hhas Hnone Hid. unfold handleRefundRequestStep.
  destruct (GetState_has sessionID _ _ w Hhas) as (state & Hget & _ & Hctx).
  rewrite (bind_ok _ _ _ _ _ Hget). rewrite Hctx, Hnone.
  destruct (String.eqb_spec (MultiTurn_extractOrderID message) ""); [contradiction|].
  destruct (SetContext_has clock sessionID "order_id"
              (VString (MultiTurn_extractOrderID message)) step ctx w Hhas)
    as (w1 & Hset & Hhas1 & _).
  rewrite (bind_ok _ _ _ _ _ (wrap_ok _ _ _ _ _ Hset)).
  exists w1. split; [reflexivity|exact Hhas1].
Qed.

Lemma session_has_frame (w w' : World) (sessionID step : string)
    (ctx : gmap string Value) :
  states w' = states w ->
  session_has w sessionID step ctx -> session_has w' sessionID step ctx.
Proof. intros Heq (state & H). exists state. now rewrite Heq. Qed.

(** [processRefundRequest]: a refund that the tool accepts is reported and
    sends the session back to [greeting]; a refund that the tool refuses
    is reported too, and the step stays. *)
Lemma processRefund_outcome (sessionID orderID reason step : string)
    (ctx : gmap string Value) (w : World) :
  session_has w sessionID step ctx ->
  match SubmitRefund orderTool (clock (tick w)) (clock (tick w + 2)%nat)
          (rand_Intn (tick w + 1)%nat) (refunds w) orderID reason with
  | (Ok refund, _) =>
      exists w',
        processRefund sessionID orderID reason w
        = (Ok (refund_submitted (FormatRefundInfo refund)), w') /\
        session_has w' sessionID "greeting" ctx
  | (Err e, _) =>
      exists w',
        processRefund sessionID orderID reason w = (Ok ("退款申请失败: " ++ e), w') /\
        session_has w' sessionID step ctx
  | (Panic _, _) => True
  end.
Proof.
  intros Hhas. unfold MultiTurn_processRefundRequest, RefundTool_SubmitRefund.
  destruct (SubmitRefund orderTool _ _ _ _ orderID reason) as [[refund|e|p] refunds'];
    [| |exact I].
  - assert (Hhas1 : session_has (advance 3 (set_refunds refunds' w)) sessionID step ctx)
      by (eapply session_has_frame; [reflexivity|exact Hhas]).
    destruct (SetCurrentStep_has clock sessionID "greeting" step ctx _ Hhas1)
      as (w1 & Hset & Hhas2 & _).
    rewrite (bind_ok _ _ _ _ _ (wrap_ok _ _ _ _ _ Hset)).
    exists w1. split; [reflexivity|exact Hhas2].
  - eexists. split; [reflexivity|].
    eapply session_has_frame; [reflexivity|exact Hhas].
Qed.

(** [handleRefundRequestStep] with an order id and no reason in the context
    takes the whole message as the reason and submits the refund. *)
Lemma handleRefund_takes_reason (sessionID message orderID step : string)
    (ctx : gmap string Value) (w : World) :
  session_has w sessionID step ctx ->
  ctx !! "order_id" = Some (VString orderID) ->
  ctx !! "refund_reason" = None ->
  exists w1,
    session_has w1 sessionID step (<["refund_reason" := VString message]> ctx) /\
    refunds w1 = refunds w /\
    handleRefund sessionID message w = processRefund sessionID orderID message w1.
Proof.
  intros Hhas Hid Hnone. unfold handleRefundRequestStep.
  destruct (GetState_has sessionID _ _ w Hhas) as (state & Hget & _ & Hctx).
  rewrite (bind_ok _ _ _ _ _ Hget). rewrite Hctx, Hid, Hnone.
  destruct (SetContext_has clock sessionID "refund_reason" (VString message) step ctx w Hhas)
    as (w1 & Hset & Hhas1 & Hrf).
  rewrite (bind_ok _ _ _ _ _ (wrap_ok _ _ _ _ _ Hset)).
  exists w1. split; [exact Hhas1|]. split; [exact Hrf|]. reflexivity.
Qed.

(** [processOrderQuery]: an order that is found is reported and sends the
    session back to [greeting]; an order that is not found is reported
    too, and the step stays. *)
Lemma processOrder_outcome (sessionID orderID step : string)
    (ctx : gmap string Value) (w : World) :
  session_has w sessionID step ctx ->
  match Query orderTool orderID with
  | Ok orderInfo =>
      exists w',
        processOrder sessionID orderID w
        = (Ok (order_found (FormatOrderInfo (clock (tick w)) orderInfo)), w') /\
        session_has w' sessionID "greeting" ctx
  | Err e =>
      processOrder sessionID orderID w = (Ok ("查询订单失败: " ++ e), w)
  | Panic _ => True
  end.
Proof.
  intros Hhas. unfold MultiTurn_processOrderQuery.
  destruct (Query orderTool orderID) as [orderInfo|e|p]; [|reflexivity|exact I].
  unfold bind at 1. unfold time_Now at 1. cbv beta iota.
  assert (Hhas1 : session_has (advance 1 w) sessionID step ctx)
    by (eapply session_has_frame; [reflexivity|exact Hhas]).
  destruct (SetCurrentStep_has clock sessionID "greeting" step ctx _ Hhas1)
    as (w1 & Hset & Hhas2 & _).
  rewrite (bind_ok _ _ _ _ _ (wrap_ok _ _ _ _ _ Hset)).
  exists w1. split; [reflexivity|exact Hhas2].
Qed.

End MultiTurnHandlers.

(** ** The mock order and refund tools *)

Section BusinessToolProofs.

Import BusinessTools Statements.

Variable t0 : Time.

Lemma Query_delivered_order :
  Query (NewQueryOrder t0) "ORD789012" = Ok (delivered_order t0).
Proof.
  unfold Query, NewQueryOrder. cbn [orders foldl mock_orders OrderID].
  rewrite lookup_insert_ne by discriminate.
  rewrite lookup_insert_eq. reflexivity.
Qed.

Lemma eligibility_of_delivered_order (now : Time) :
  CheckRefundEligibility (NewQueryOrder t0) now "ORD789012"
  = if (t0 + 120 * Hour <? now)%Z
    then Ok (false, "订单已超过7天退货期")
    else Ok (true, "订单在退货期内，可以申请退款").
Proof.
  unfold CheckRefundEligibility. rewrite Query_delivered_order.
  cbn [Status EstDelivery delivered_order].
  change (String.eqb "已送达" "已送达") with true. cbv iota.
  destruct (Z.ltb_spec (7 * 24 * Hour) (now - (t0 - 48 * Hour)));
    destruct (Z.ltb_spec (t0 + 120 * Hour) now); try reflexivity;
    unfold Hour in *; lia.
Qed.

(** The refund of the delivered mock order is accepted until the order
    tool is five days old, and refused afterwards. *)
Lemma SubmitRefund_delivered_order (now1 now2 : Time) (rnd : Z)
    (refunds : gmap string RefundRequest) (reason : string) :
  SubmitRefund (NewQueryOrder t0) now1 now2 rnd refunds "ORD789012" reason
  = if (t0 + 120 * Hour <? now1)%Z
    then (Err "不符合退款条件: 订单已超过7天退货期", refunds)
    else (Ok (refund_of_delivered_order now2 rnd reason),
          <["REF" ++ pretty rnd := refund_of_delivered_order now2 rnd reason]> refunds).
Proof.
  unfold SubmitRefund. rewrite eligibility_of_delivered_order.
  destruct (t0 + 120 * Hour <? now1)%Z; [reflexivity|].
  cbn [negb]. cbv iota. rewrite Query_delivered_order. reflexivity.
Qed.

End BusinessToolProofs.

(** ** The refund scenario on the multi-turn handler *)

Section MultiTurnScenario.

Import GoStrings BusinessTools Conversation Statements.

Variable clock : nat -> Time.
Variable rand_Intn : nat -> Z.
Variable chatModel : nat -> string -> Result string.
Variable t0 : Time.
Variable FormatOrderInfo : Time -> OrderInfo -> string.
Variable FormatRefundInfo : RefundRequest -> string.

Abbreviation turn :=
  (MultiTurn_ProcessMessage clock rand_Intn chatModel (NewQueryOrder t0)
     FormatOrderInfo FormatRefundInfo).
Abbreviation handle_step :=
  (handle_by_step clock rand_Intn chatModel (NewQueryOrder t0)
     FormatOrderInfo FormatRefundInfo).

Lemma intent_of_refund_wish : detectIntent "我要退款" = "refund_request".
Proof. vm_compute. reflexivity. Qed.

Lemma order_id_of_ORD789012 : MultiTurn_extractOrderID "ORD789012" = "ORD789012".
Proof. vm_compute. reflexivity. Qed.

(** The refund scenario on the multi-turn handler, for a session [s1] that
    is not yet in the table and while the order tool is at most five days
    old: the first turn asks for the order id, the second for the refund
    reason, the third reports the refund that was submitted, and the
    session is back at [greeting]. *)
Lemma multi_turn_refund_scenario (w0 : World) :
  states w0 !! "s1" = None ->
  (forall k, (clock k <= t0 + 120 * Hour)%Z) ->
  exists w1 w2 w3 refund,
    turn "s1" "我要退款" w0 = (Ok ask_order_id_for_refund, w1) /\
    turn "s1" "ORD789012" w1 = (Ok (ask_refund_reason "ORD789012"), w2) /\
    turn "s1" "质量问题" w2 = (Ok (refund_submitted (FormatRefundInfo refund)), w3) /\
    RefundOrderID refund = "ORD789012" /\
    Reason refund = "质量问题" /\
    session_has w3 "s1" "greeting"
      (<["refund_reason" := VString "质量问题"]>
         (<["order_id" := VString "ORD789012"]> ∅)).
Proof.
  intros Hfresh Hyoung.
  destruct (GetOrCreateState_fresh clock "s1" "default_user" w0 Hfresh)
    as (state0 & w0' & Hget0 & Hhas0 & _).
  destruct (MultiTurn_turn_with clock rand_Intn chatModel (NewQueryOrder t0)
              FormatOrderInfo FormatRefundInfo
              (fun r => r = Ok ask_order_id_for_refund)
              "s1" "我要退款" "greeting" "refund_request"
              ∅ ∅ w0 w0' state0 Hget0 Hhas0)
    as (r1 & w1 & Hturn1 & -> & Hhas1).
  { intros w Hhas.
    change (handle_step "greeting" "s1" "我要退款")
      with (handleGreetingStep clock rand_Intn (NewQueryOrder t0)
              FormatOrderInfo FormatRefundInfo "s1" "我要退款").
    unfold handleGreetingStep. rewrite intent_of_refund_wish.
    change (String.eqb "refund_request" "order_query") with false.
    change (String.eqb "refund_request" "refund_request") with true. cbv iota.
    destruct (startRefundRequest_asks_order_id clock rand_Intn (NewQueryOrder t0)
                FormatRefundInfo "s1" "greeting" ∅ w Hhas (lookup_empty _))
      as (w' & Hrun & Hhas').
    now exists (Ok ask_order_id_for_refund), w'. }
  destruct (GetOrCreateState_has clock "s1" "default_user" _ _ w1 Hhas1) as (state1 & Hget1).
  destruct (MultiTurn_turn_with clock rand_Intn chatModel (NewQueryOrder t0)
              FormatOrderInfo FormatRefundInfo
              (fun r => r = Ok (ask_refund_reason "ORD789012"))
              "s1" "ORD789012" "refund_request" "refund_request" ∅
              (<["order_id" := VString "ORD789012"]> ∅)
              w1 w1 state1 Hget1 Hhas1)
    as (r2 & w2 & Hturn2 & -> & Hhas2).
  { intros w Hhas.
    change (handle_step "refund_request" "s1" "ORD789012")
      with (handleRefundRequestStep clock rand_Intn (NewQueryOrder t0)
              FormatRefundInfo "s1" "ORD789012").
    destruct (handleRefund_takes_order_id clock rand_Intn (NewQueryOrder t0)
                FormatRefundInfo "s1" "ORD789012" "refund_request" ∅ w Hhas
                (lookup_empty _)) as (w' & Hrun & Hhas').
    { rewrite order_id_of_ORD789012. discriminate. }
    rewrite order_id_of_ORD789012 in Hrun, Hhas'.
    now exists (Ok (ask_refund_reason "ORD789012")), w'. }
  destruct (GetOrCreateState_has clock "s1" "default_user" _ _ w2 Hhas2) as (state2 & Hget2).
  destruct (MultiTurn_turn_with clock rand_Intn chatModel (NewQueryOrder t0)
              FormatOrderInfo FormatRefundInfo
              (fun r => exists refund,
                          r = Ok (refund_submitted (FormatRefundInfo refund)) /\
                          RefundOrderID refund = "ORD789012" /\
                          Reason refund = "质量问题")
              "s1" "质量问题" "refund_request" "greeting"
              (<["order_id" := VString "ORD789012"]> ∅)
              (<["refund_reason" := VString "质量问题"]>
                 (<["order_id" := VString "ORD789012"]> ∅))
              w2 w2 state2 Hget2 Hhas2)
    as (r3 & w3 & Hturn3 & (refund & -> & Hid & Hreason) & Hhas3).
  { intros w Hhas.
    change (handle_step "refund_request" "s1" "质量问题")
      with (handleRefundRequestStep clock rand_Intn (NewQueryOrder t0)
              FormatRefundInfo "s1" "质量问题").
    destruct (handleRefund_takes_reason clock rand_Intn (NewQueryOrder t0) FormatRefundInfo
                "s1" "质量问题" "ORD789012" "refund_request" _ w Hhas)
      as (w' & Hhas' & _ & ->);
      [apply lookup_insert_eq | now rewrite lookup_insert_ne by discriminate |].
    pose proof (processRefund_outcome clock rand_Intn (NewQueryOrder t0) FormatRefundInfo
                  "s1" "ORD789012" "质量问题" "refund_request" _ w' Hhas') as Hout.
    rewrite SubmitRefund_delivered_order in Hout.
    destruct (Z.ltb_spec (t0 + 120 * Hour) (clock (tick w'))) as [Hold|_];
      [specialize (Hyoung (tick w')); lia|].
    destruct Hout as (w'' & Hrun & Hhas'').
    eexists _, w''. split; [exact Hrun|]. split; [|exact Hhas''].
    eexists. split; [reflexivity|]. split; reflexivity. }
  exists w1, w2, w3, refund. tauto.
Qed.

End MultiTurnScenario.

Lemma step_flow_refund_scenario_witness :
  exists w1 w2 w3,
    Conversation.Manager_ProcessMessage Statements.sample_clock Conversation.default_steps
      Conversation.NewConversationFlow "s1" "u1" "我要退款" Statements.empty_world
    = (Ok "请提供您的订单号和退款原因，我将为您处理退款申请。", w1) /\
    Conversation.Manager_ProcessMessage Statements.sample_clock Conversation.default_steps
      Conversation.NewConversationFlow "s1" "u1" "ORD789012" w1
    = (Ok "请说明您的退款原因，例如：商品质量问题、不想要了、发错货等。", w2) /\
    Conversation.Manager_ProcessMessage Statements.sample_clock Conversation.default_steps
      Conversation.NewConversationFlow "s1" "u1" "质量问题" w2
    = (Ok Conversation.reprompt_order_id, w3) /\
    Statements.session_has w3 "s1" "refund_request"
      (<["awaiting_refund_reason" := VBool true]>
         (<["order_id" := VString "ORD789012"]> ∅)).
Proof.
  apply (step_flow_refund_scenario Statements.sample_clock Conversation.default_steps
           (range_of_default _ (Permutation_refl _)) Statements.empty_world "u1").
  apply lookup_empty.
Defined.

(** ** Strings and the two order-id patterns *)

Section StringProofs.

Import GoStrings Statements.

Lemma append_nil_l (s : string) : "" ++ s = s.
Proof. reflexivity. Qed.

Lemma append_cons (c : ascii) (a b : string) : String c a ++ b = String c (a ++ b).
Proof. reflexivity. Qed.

(** String concatenation does not unfold under [simpl]; these two
    equations are rewritten instead. *)
Ltac push_append := rewrite ?append_cons, ?append_nil_l in *.

Lemma append_nil_r (s : string) : s ++ "" = s.
Proof. induction s as [|c s IH]; push_append; [reflexivity|now rewrite IH]. Qed.

Lemma append_assoc (a b c : string) : (a ++ b) ++ c = a ++ (b ++ c).
Proof. induction a as [|x a IH]; push_append; [reflexivity|now rewrite IH]. Qed.

Lemma length_append (a b : string) :
  String.length (a ++ b) = (String.length a + String.length b)%nat.
Proof.
  induction a as [|x a IH]; push_append; simpl; [reflexivity|now rewrite IH].
Qed.

(** Two splittings of a text with prefixes of the same length are equal. *)
Lemma append_same_length (a b a' b' : string) :
  a ++ b = a' ++ b' -> String.length a = String.length a' -> a = a' /\ b = b'.
Proof.
  revert a'. induction a as [|x a IH]; intros [|x' a'] Heq Hlen; push_append;
    simpl in Hlen; try discriminate; [tauto|].
  injection Heq as -> Heq. destruct (IH a' Heq) as [-> ->]; [lia|tauto].
Qed.

Lemma span_spec (p : ascii -> bool) (s run rest : string) :
  span p s = (run, rest) ->
  s = run ++ rest /\ all_chars p run = true /\ starts_with p rest = false.
Proof.
  revert run rest. induction s as [|c s IH]; intros run rest Hspan; simpl in Hspan.
  - injection Hspan as <- <-. tauto.
  - destruct (p c) eqn:Hc.
    + destruct (span p s) as [run' rest'] eqn:E. injection Hspan as <- <-.
      destruct (IH run' rest' eq_refl) as (-> & Hall & Hrest).
      push_append. simpl. rewrite Hc, Hall. tauto.
    + injection Hspan as <- <-. push_append. simpl. rewrite Hc. tauto.
Qed.

Lemma span_app (p : ascii -> bool) (run rest : string) :
  all_chars p run = true -> starts_with p rest = false ->
  span p (run ++ rest) = (run, rest).
Proof.
  intros Hall Hrest. induction run as [|c run IH]; push_append; simpl in *.
  - destruct rest as [|c rest]; [reflexivity|]. simpl in *. now rewrite Hrest.
  - apply andb_prop in Hall as [Hc Hall]. rewrite Hc, (IH Hall). reflexivity.
Qed.

(** A run of the class at the start of the text is within the span. *)
Lemma span_covers (p : ascii -> bool) (run rest : string) :
  all_chars p run = true ->
  (String.length run <= String.length (span p (run ++ rest)).1)%nat.
Proof.
  intros Hall. induction run as [|c run IH]; push_append; simpl in *; [lia|].
  apply andb_prop in Hall as [Hc Hall]. rewrite Hc.
  specialize (IH Hall). destruct (span p (run ++ rest)). simpl in *. lia.
Qed.

Lemma find_first_Some (m : string -> option string) (s tok : string) :
  find_first m s = Some tok ->
  exists pre rest,
    s = pre ++ rest /\ m rest = Some tok /\
    forall pre' rest', s = pre' ++ rest' ->
      (String.length pre' < String.length pre)%nat -> m rest' = None.
Proof.
  induction s as [|c s IH]; simpl.
  - destruct (m "") eqn:E; [|discriminate]. intros [= <-].
    exists "", "". split; [reflexivity|]. split; [exact E|]. simpl. intros; lia.
  - destruct (m (String c s)) eqn:E.
    + intros [= <-]. exists "", (String c s). split; [reflexivity|].
      split; [exact E|]. simpl. intros; lia.
    + intros Hfind. destruct (IH Hfind) as (pre & rest & -> & Hm & Hleft).
      exists (String c pre), rest. split; [reflexivity|]. split; [exact Hm|].
      intros [|c' pre'] rest' Heq Hlen; push_append; simpl in Hlen.
      * now subst rest'.
      * injection Heq as <- Heq. apply (Hleft pre' rest' Heq). lia.
Qed.

Lemma find_first_None (m : string -> option string) (s : string) :
  find_first m s = None ->
  forall pre rest, s = pre ++ rest -> m rest = None.
Proof.
  induction s as [|c s IH]; simpl.
  - destruct (m "") eqn:E; [discriminate|]. intros _ [|c pre] rest Heq; push_append.
    + now subst rest.
    + discriminate.
  - destruct (m (String c s)) eqn:E; [discriminate|].
    intros Hfind [|c' pre] rest Heq; push_append.
    + now subst rest.
    + injection Heq as <- Heq. now apply (IH Hfind pre rest).
Qed.

(** *** The pattern [ORD\w+] *)

Lemma HasPrefix_spec (s p : string) :
  HasPrefix s p = true <-> exists rest, s = p ++ rest.
Proof.
  revert s. induction p as [|a p IH]; intros s; cbn [HasPrefix].
  - split; [intros _; now exists s|intros _; now destruct s].
  - destruct s as [|b s]; cbn [HasPrefix].
    + split; [discriminate|]. intros [rest Heq]. push_append. discriminate.
    + destruct (Ascii.eqb_spec a b) as [<-|Hne].
      * rewrite IH. split; intros [rest Heq]; exists rest; push_append; congruence.
      * split; [discriminate|]. intros [rest Heq]. push_append. congruence.
Qed.

Lemma match_ORD_word_Some (s tok : string) :
  match_ORD_word s = Some tok ->
  exists post, s = tok ++ post /\ ORD_token tok /\ starts_with is_word post = false.
Proof.
  unfold match_ORD_word.
  destruct (HasPrefix s "ORD") eqn:Hprefix; [|discriminate].
  apply HasPrefix_spec in Hprefix as [rest ->].
  change (drop 3 ("ORD" ++ rest)) with rest.
  destruct (span is_word rest) as [w post] eqn:Hspan.
  destruct (span_spec _ _ _ _ Hspan) as (-> & Hall & Hpost).
  destruct w as [|c w]; [discriminate|]. intros [= <-].
  exists post. split; [now rewrite append_assoc|]. split; [|exact Hpost].
  exists (String c w). split; [reflexivity|]. split; [discriminate|exact Hall].
Qed.

(** Where a token starts, the pattern matches. *)
Lemma match_ORD_word_at_token (tok post : string) :
  ORD_token tok -> match_ORD_word (tok ++ post) <> None.
Proof.
  intros (w & -> & Hne & Hall). destruct w as [|c w]; [contradiction|].
  unfold match_ORD_word.
  assert (Hprefix : HasPrefix (("ORD" ++ String c w) ++ post) "ORD" = true).
  { apply HasPrefix_spec. exists (String c w ++ post). now rewrite append_assoc. }
  rewrite Hprefix.
  change (drop 3 (("ORD" ++ String c w) ++ post)) with (String c (w ++ post)).
  cbn [all_chars] in Hall. apply andb_prop in Hall as [Hc _].
  cbn [span]. rewrite Hc. destruct (span is_word (w ++ post)). discriminate.
Qed.

Lemma find_first_ORD_leftmost (text tok : string) :
  find_first match_ORD_word text = Some tok -> leftmost_ORD_token text tok.
Proof.
  intros Hfind. destruct (find_first_Some _ _ _ Hfind) as (pre & rest & -> & Hm & Hleft).
  destruct (match_ORD_word_Some _ _ Hm) as (post & -> & Htok & Hpost).
  exists pre, post. repeat split; try assumption.
  intros pre' tok' post' Heq Htok'.
  destruct (Nat.le_gt_cases (String.length pre) (String.length pre')) as [|Hlt];
    [assumption|].
  exfalso. apply (match_ORD_word_at_token tok' post' Htok').
  now apply (Hleft pre' (tok' ++ post') Heq).
Qed.

Lemma find_first_ORD_none (text : string) :
  find_first match_ORD_word text = None -> ~ has_ORD_token text.
Proof.
  intros Hfind (pre & tok & post & Heq & Htok).
  apply (match_ORD_word_at_token tok post Htok).
  now apply (find_first_None _ _ Hfind pre).
Qed.

Lemma ORD_token_nonempty (tok : string) : ORD_token tok -> tok <> "".
Proof. intros (w & -> & _). discriminate. Qed.

(** The leftmost token is unique. *)
Lemma leftmost_ORD_token_unique (text tok1 tok2 : string) :
  leftmost_ORD_token text tok1 -> leftmost_ORD_token text tok2 -> tok1 = tok2.
Proof.
  intros (pre1 & post1 & H1 & Ht1 & Hp1 & Hl1) (pre2 & post2 & H2 & Ht2 & Hp2 & Hl2).
  pose proof (Hl1 pre2 tok2 post2 H2 Ht2). pose proof (Hl2 pre1 tok1 post1 H1 Ht1).
  rewrite H1 in H2. destruct (append_same_length _ _ _ _ H2) as [_ Heq]; [lia|].
  destruct Ht1 as (w1 & -> & _ & Hw1). destruct Ht2 as (w2 & -> & _ & Hw2).
  push_append. injection Heq as Heq.
  pose proof (span_app is_word w1 post1 Hw1 Hp1) as Hs1.
  rewrite Heq, (span_app is_word w2 post2 Hw2 Hp2) in Hs1. now injection Hs1 as ->.
Qed.

(** [extractOrderID] returns the leftmost token, and the empty string
    exactly when the text has no token. *)
Lemma extractOrderID_leftmost (text tok : string) :
  leftmost_ORD_token text tok -> Conversation.extractOrderID text = tok.
Proof.
  intros Hleft. unfold Conversation.extractOrderID.
  destruct (find_first match_ORD_word text) as [tok'|] eqn:Hfind.
  - apply (leftmost_ORD_token_unique text); [now apply find_first_ORD_leftmost|exact Hleft].
  - exfalso. apply (find_first_ORD_none text Hfind).
    destruct Hleft as (pre & post & Heq & Htok & _). now exists pre, tok, post.
Qed.

Lemma extractOrderID_none (text : string) :
  ~ has_ORD_token text -> Conversation.extractOrderID text = "".
Proof.
  intros Hnone. unfold Conversation.extractOrderID.
  destruct (find_first match_ORD_word text) as [tok|] eqn:Hfind; [|reflexivity].
  exfalso. apply Hnone.
  destruct (find_first_ORD_leftmost _ _ Hfind) as (pre & post & Heq & Htok & _).
  now exists pre, tok, post.
Qed.

Lemma has_ORD_token_leftmost (text : string) :
  has_ORD_token text -> exists tok, leftmost_ORD_token text tok.
Proof.
  intros Hhas. destruct (find_first match_ORD_word text) as [tok|] eqn:Hfind.
  - exists tok. now apply find_first_ORD_leftmost.
  - exfalso. now apply (find_first_ORD_none text Hfind).
Qed.

(** *** The pattern [[A-Za-z]*\d{6,}] *)

Lemma is_digit_not_letter (c : ascii) : is_digit c = true -> is_letter c = false.
Proof.
  unfold is_digit, is_letter, is_upper, is_lower. intros H.
  apply andb_prop in H as [_ H]. apply Nat.leb_le in H.
  apply orb_false_intro; apply andb_false_intro1; apply Nat.leb_gt; lia.
Qed.

Lemma match_letters_digits_Some (s tok : string) :
  match_letters_digits s = Some tok ->
  digits6_token tok /\ exists post, s = tok ++ post.
Proof.
  unfold match_letters_digits.
  destruct (span is_letter s) as [l rest] eqn:Hl.
  destruct (span is_digit rest) as [d post] eqn:Hd.
  destruct (span_spec _ _ _ _ Hl) as (-> & Hletters & _).
  destruct (span_spec _ _ _ _ Hd) as (-> & Hdigits & _).
  destruct (Nat.leb_spec 6 (String.length d)) as [Hlen|]; [|discriminate].
  intros [= <-]. split.
  - now exists l, d.
  - exists post. now rewrite append_assoc.
Qed.

(** Where six digits start, the pattern matches. *)
Lemma match_letters_digits_at_digits (d post : string) :
  all_chars is_digit d = true -> (6 <= String.length d)%nat ->
  match_letters_digits (d ++ post) <> None.
Proof.
  intros Hdigits Hlen. unfold match_letters_digits.
  destruct d as [|c d]; [simpl in Hlen; lia|].
  pose proof (span_covers is_digit (String c d) post Hdigits) as Hcover.
  cbn [all_chars] in Hdigits. apply andb_prop in Hdigits as [Hc _].
  rewrite append_cons in *. cbn [span]. rewrite (is_digit_not_letter c Hc).
  destruct (span is_digit (String c (d ++ post))) as [run rest]. cbn [fst] in Hcover.
  destruct (Nat.leb_spec 6 (String.length run)); [discriminate|lia].
Qed.

Lemma find_all_from_In (m : string -> option string) (skip : nat) (s tok : string) :
  In tok (find_all_from m skip s) ->
  exists pre rest, s = pre ++ rest /\ m rest = Some tok.
Proof.
  revert skip. induction s as [|c s IH]; intros skip Hin; cbn [find_all_from] in Hin.
  - destruct Hin.
  - destruct skip as [|k].
    + destruct (m (String c s)) as [tok'|] eqn:E.
      * destruct Hin as [<-|Hin]; [now exists "", (String c s)|].
        destruct (IH _ Hin) as (pre & rest & -> & Hm). now exists (String c pre), rest.
      * destruct (IH _ Hin) as (pre & rest & -> & Hm). now exists (String c pre), rest.
    + destruct (IH _ Hin) as (pre & rest & -> & Hm). now exists (String c pre), rest.
Qed.

Lemma find_all_nonempty (m : string -> option string) (pre rest : string) :
  rest <> "" -> m rest <> None -> find_all m (pre ++ rest) <> [].
Proof.
  intros Hrest Hm. unfold find_all. induction pre as [|c pre IH]; push_append.
  - destruct rest as [|c rest]; [contradiction|]. cbn [find_all_from].
    destruct (m (String c rest)); [discriminate|contradiction].
  - cbn [find_all_from]. destruct (m (String c (pre ++ rest))); [discriminate|exact IH].
Qed.

Lemma ToUpper_length (s : string) : String.length (ToUpper s) = String.length s.
Proof. unfold ToUpper. induction s as [|c s IH]; simpl; [reflexivity|now rewrite IH]. Qed.

Lemma digits6_token_length (tok : string) :
  digits6_token tok -> (6 <= String.length tok)%nat.
Proof. intros (l & d & -> & _ & _ & Hlen). rewrite length_append. lia. Qed.

(** The id that the multi-turn handler extracts is the upper-case form of
    one of the matches, or empty when there is no match. *)
Lemma MultiTurn_extractOrderID_cases (message : string) :
  (find_all match_letters_digits message = [] /\
   Conversation.MultiTurn_extractOrderID message = "") \/
  (exists m, In m (find_all match_letters_digits message) /\
             Conversation.MultiTurn_extractOrderID message = ToUpper m).
Proof.
  unfold Conversation.MultiTurn_extractOrderID.
  destruct (List.find _ (find_all match_letters_digits message)) as [m|] eqn:Hfind.
  - right. exists m. split; [|reflexivity]. now apply List.find_some in Hfind.
  - destruct (find_all match_letters_digits message) as [|m rest].
    + now left.
    + right. exists m. split; [now left|reflexivity].
Qed.

Lemma MultiTurn_extractOrderID_none (message : string) :
  ~ has_digits6_token message -> Conversation.MultiTurn_extractOrderID message = "".
Proof.
  intros Hnone. destruct (MultiTurn_extractOrderID_cases message) as [[_ H]|(m & Hin & _)];
    [exact H|].
  exfalso. apply Hnone. destruct (find_all_from_In _ _ _ _ Hin) as (pre & rest & -> & Hm).
  destruct (match_letters_digits_Some _ _ Hm) as (Htok & post & ->).
  now exists pre, m, post.
Qed.

Lemma MultiTurn_extractOrderID_some (message : string) :
  has_digits6_token message ->
  exists pre tok post,
    message = pre ++ tok ++ post /\ digits6_token tok /\
    Conversation.MultiTurn_extractOrderID message = ToUpper tok /\
    ToUpper tok <> "".
Proof.
  intros (pre & tok & post & -> & l & d & -> & Hl & Hd & Hlen).
  destruct (MultiTurn_extractOrderID_cases (pre ++ (l ++ d) ++ post))
    as [[Hnil _]|(m & Hin & Hid)].
  - exfalso. revert Hnil.
    replace (pre ++ (l ++ d) ++ post) with ((pre ++ l) ++ (d ++ post))
      by now rewrite !append_assoc.
    apply find_all_nonempty.
    + destruct d; [simpl in Hlen; lia|discriminate].
    + now apply match_letters_digits_at_digits.
  - destruct (find_all_from_In _ _ _ _ Hin) as (pre' & rest & Heq & Hm).
    destruct (match_letters_digits_Some _ _ Hm) as (Htok & post' & ->).
    exists pre', m, post'. repeat split; try assumption.
    intros Hempty. pose proof (digits6_token_length m Htok) as Hlen'.
    rewrite <- ToUpper_length, Hempty in Hlen'. simpl in Hlen'. lia.
Qed.

End StringProofs.

(** ** The order-query step *)

Section OrderQueryProofs.

Import GoStrings BusinessTools Conversation Statements.

Variable clock : nat -> Time.
Variable orderTool : QueryOrder.
Variable FormatOrderInfo : Time -> OrderInfo -> string.

Abbreviation handleOrder := (handleOrderQueryStep clock orderTool FormatOrderInfo).

(** C6 (amended).  The order-query step of the step flow extracts the
    leftmost token made of [ORD] and one or more word characters, as it is
    written: without such a token it asks again and changes nothing, with
    one it stores the token under [order_id], reports the lookup and sets
    the step to [greeting].  The order-query step of the multi-turn handler
    extracts a token made of letters of either case, possibly none, and six
    or more digits, in upper case: without such a token it asks again and
    changes nothing, with one it stores the token under [order_id] and
    looks the order up; it reports the order and sets the step to
    [greeting] when the order is found, and reports the failure and keeps
    the step when it is not. *)
Theorem order_query_extraction :
  (forall state input,
     ~ has_ORD_token input ->
     Execute OrderQueryStep state input = (Ok reprompt_order_id, state)) /\
  (forall state input tok,
     leftmost_ORD_token input tok ->
     Execute OrderQueryStep state input
     = (Ok ("订单查询结果：" ++ nl ++ "订单号：" ++ tok ++ nl ++ queryOrderStatus tok),
        set_CurrentStep "greeting"
          (set_Context (<["order_id" := VString tok]> (Context state)) state))) /\
  (forall input, has_ORD_token input -> exists tok, leftmost_ORD_token input tok) /\
  (forall w sessionID message,
     ~ has_digits6_token message ->
     handleOrder sessionID message w = (Ok order_id_not_found, w)) /\
  (forall w sessionID message step ctx,
     session_has w sessionID step ctx ->
     has_digits6_token message ->
     exists pre tok post,
       message = pre ++ tok ++ post /\ digits6_token tok /\
       match Query orderTool (ToUpper tok) with
       | Ok orderInfo =>
           exists now w',
             handleOrder sessionID message w
             = (Ok (order_found (FormatOrderInfo now orderInfo)), w') /\
             session_has w' sessionID "greeting"
               (<["order_id" := VString (ToUpper tok)]> ctx)
       | Err e =>
           exists w',
             handleOrder sessionID message w = (Ok ("查询订单失败: " ++ e), w') /\
             session_has w' sessionID step
               (<["order_id" := VString (ToUpper tok)]> ctx)
       | Panic _ => True
       end).
Proof.
  split; [|split; [|split; [|split]]].
  - intros state input Hnone. cbn [Execute OrderQueryStep].
    now rewrite (extractOrderID_none input Hnone).
  - intros state input tok Hleft. cbn [Execute OrderQueryStep].
    rewrite (extractOrderID_leftmost input tok Hleft).
    destruct (String.eqb_spec tok "") as [Hempty|_]; [|reflexivity].
    destruct Hleft as (_ & _ & _ & Htok & _). now apply ORD_token_nonempty in Htok.
  - exact has_ORD_token_leftmost.
  - intros w sessionID message Hnone. unfold handleOrderQueryStep.
    now rewrite (MultiTurn_extractOrderID_none message Hnone).
  - intros w sessionID message step ctx Hhas Htoken.
    destruct (MultiTurn_extractOrderID_some message Htoken)
      as (pre & tok & post & Heq & Htok & Hid & Hne).
    exists pre, tok, post. split; [exact Heq|]. split; [exact Htok|].
    unfold handleOrderQueryStep. rewrite Hid.
    destruct (String.eqb_spec (ToUpper tok) "") as [|_]; [contradiction|].
    destruct (SetContext_has clock sessionID "order_id" (VString (ToUpper tok))
                step ctx w Hhas) as (w1 & Hset & Hhas1 & _).
    rewrite (bind_ok _ _ _ _ _ (wrap_ok _ _ _ _ _ Hset)).
    pose proof (processOrder_outcome clock orderTool FormatOrderInfo sessionID
                  (ToUpper tok) step _ w1 Hhas1) as Hout.
    destruct (Query orderTool (ToUpper tok)) as [orderInfo|e|p]; [| |exact I].
    + destruct Hout as (w' & Hrun & Hhas'). now exists (clock (tick w1)), w'.
    + exists w1. now split.
Qed.

End OrderQueryProofs.

Lemma order_query_extraction_witness :
  Conversation.Execute Conversation.OrderQueryStep Statements.order_query_session
    "ORD123456 查询"
  = (Ok ("订单查询结果：" ++ nl ++ "订单号：" ++ "ORD123456" ++ nl
         ++ Conversation.queryOrderStatus "ORD123456"),
     Conversation.set_CurrentStep "greeting"
       (Conversation.set_Context
          (<["order_id" := VString "ORD123456"]>
             (Conversation.Context Statements.order_query_session))
          Statements.order_query_session)).
Proof.
  apply (proj1 (proj2 (order_query_extraction Statements.sample_clock
                         (BusinessTools.NewQueryOrder 0) Statements.sample_order_layout))).
  apply find_first_ORD_leftmost. vm_compute. reflexivity.
Defined.

Lemma no_spec_token_in_ORD1 : ~ Statements.has_spec_order_id_token "ORD1".
Proof.
  intros (pre & tok & post & Heq & l & d & -> & _ & _ & _ & Hlen).
  apply (f_equal String.length) in Heq. rewrite !length_append in Heq.
  simpl in Heq. lia.
Qed.

(** C6, as stated, fails.  On the step flow, [ORD1] holds no run of upper
    case letters followed by six digits, yet the step takes it as the order
    id and moves to [greeting].  On the multi-turn handler, [ORD999999]
    holds such a token, yet the step stays [order_query], because no such
    order exists. *)
Lemma order_query_counterexample :
  ~ Statements.order_query_as_specified
      (Conversation.Execute Conversation.OrderQueryStep) /\
  Statements.has_spec_order_id_token "ORD999999" /\
  exists w',
    Conversation.handleOrderQueryStep Statements.sample_clock
      (BusinessTools.NewQueryOrder 0) Statements.sample_order_layout
      "s1" "ORD999999" Statements.order_query_world
    = (Ok "查询订单失败: 订单不存在: ORD999999", w') /\
    Statements.session_has w' "s1" "order_query"
      (<["order_id" := VString "ORD999999"]> ∅).
Proof.
  split; [|split].
  - intros Hspec.
    destruct (Hspec Statements.order_query_session "ORD1") as [Hstay _].
    specialize (Hstay no_spec_token_in_ORD1). vm_compute in Hstay. discriminate.
  - exists "", "ORD999999", "". split; [reflexivity|].
    exists "ORD", "999999". repeat split; try reflexivity; try discriminate.
  - eexists. split; [vm_compute; reflexivity|].
    eexists. split; [vm_compute; reflexivity|]. split; reflexivity.
Qed.
